(** * PythonSpeed-test: the progress bar, the metrics summary and the predictions

    A shallow embedding of [main.py].  Python's [int] is [Z], Python's [float]
    is the primitive binary64 [float]; a value whose type depends on the branch
    taken (for instance [speed], which is [current / elapsed_time] or the
    integer [0]) is a [num].  Exceptions are values of [exn]; the clock, the
    calendar and the interpreter description are read from an environment
    [Env], one answer per call. *)

From Stdlib Require Import ZArith Lia Bool List String Ascii DecimalString Floats.
Import ListNotations.

Set Warnings "-inexact-float".
Local Open Scope string_scope.
Local Open Scope Z_scope.

(** ** Exceptions and the two monads *)

Inductive exn : Type :=
| ZeroDivisionError (msg : string)
| OverflowError (msg : string)
| ValueError (msg : string).

Definition exn_message (e : exn) : string :=
  match e with
  | ZeroDivisionError msg | OverflowError msg | ValueError msg => msg
  end.

Inductive result (A : Type) : Type :=
| Ok (a : A)
| Raise (e : exn).
Arguments Ok {A} a.
Arguments Raise {A} e.

(** A computation over a mutable state [S] that may raise: the state reached
    is returned in both cases, as an exception does not undo assignments. *)
Definition M (S A : Type) : Type := S -> result A * S.

Class Monad (m : Type -> Type) : Type := {
  ret : forall {A : Type}, A -> m A;
  bind : forall {A B : Type}, m A -> (A -> m B) -> m B
}.

#[export] Instance result_Monad : Monad result := {|
  ret := fun A a => Ok a;
  bind := fun A B r k => match r with Ok a => k a | Raise e => Raise e end
|}.

#[export] Instance M_Monad (S : Type) : Monad (M S) := {|
  ret := fun A a s => (Ok a, s);
  bind := fun A B c k s =>
    match c s with
    | (Ok a, s') => k a s'
    | (Raise e, s') => (Raise e, s')
    end
|}.

Notation "x <- c ;; k" := (bind c (fun x => k))
  (at level 61, c at next level, right associativity).
Notation "' pat <- c ;; k" := (bind c (fun x => match x with pat => k end))
  (at level 61, pat pattern, c at next level, right associativity).
Notation "c ;;; k" := (bind c (fun _ => k))
  (at level 61, right associativity).

Definition lift {S A : Type} (r : result A) : M S A := fun s => (r, s).
Definition get {S : Type} : M S S := fun s => (Ok s, s).
Definition put {S : Type} (s : S) : M S unit := fun _ => (Ok tt, s).
Definition modify {S : Type} (f : S -> S) : M S unit := fun s => (Ok tt, f s).

(** [try c handler]: Python's [try: c  except Exception as e: handler e]. *)
Definition try {S A : Type} (c : M S A) (handler : exn -> M S A) : M S A :=
  fun s => match c s with
           | (Ok a, s') => (Ok a, s')
           | (Raise e, s') => handler e s'
           end.

(** [for x in xs: body x] *)
Fixpoint for_each {S A : Type} (xs : list A) (body : A -> M S unit) : M S unit :=
  match xs with
  | [] => ret tt
  | x :: xs' => body x ;;; for_each xs' body
  end.

(** ** Python numbers *)

Module Py.

(** The least magnitude that rounds (to nearest, ties to even) to 2^1024:
    half an ulp above the largest finite binary64 number. *)
Definition overflow_bound : Z := 2 ^ 1024 - 2 ^ 970.
#[global] Opaque overflow_bound.

Definition Z2SF (n : Z) : spec_float :=
  match n with
  | Z0 => S754_zero false
  | Zpos p => S754_finite false p 0
  | Zneg p => S754_finite true p 0
  end.

(** [float(n)]: the nearest binary64 number. *)
Definition float_of_int (n : Z) : result float :=
  if Z.abs n <? overflow_bound
  then Ok (SF2Prim (binary_normalize prec emax n 0 false))
  else Raise (OverflowError "int too large to convert to float").

(** [a / b] on two ints: the correctly rounded quotient. *)
Definition int_truediv (a b : Z) : result float :=
  if b =? 0 then Raise (ZeroDivisionError "division by zero")
  else if Z.abs a <? overflow_bound * Z.abs b
  then Ok (SF2Prim (SFdiv prec emax (Z2SF a) (Z2SF b)))
  else Raise (OverflowError "integer division result too large for a float").

(** [x / y] on two floats. *)
Definition float_truediv (x y : float) : result float :=
  if PrimFloat.eqb y 0 then Raise (ZeroDivisionError "float division by zero")
  else Ok (PrimFloat.div x y).

(** [int(x)]: truncation towards zero. *)
Definition int_of_float (x : float) : result Z :=
  match Prim2SF x with
  | S754_nan => Raise (ValueError "cannot convert float NaN to integer")
  | S754_infinity _ => Raise (OverflowError "cannot convert float infinity to integer")
  | S754_zero _ => Ok 0
  | S754_finite s m e => Ok (cond_Zopp s (Z.shiftl (Zpos m) e))
  end.

Inductive num : Type :=
| Int (n : Z)
| Float (x : float).

Definition to_float (a : num) : result float :=
  match a with
  | Int n => float_of_int n
  | Float x => Ok x
  end.

(** Comparison is exact, also between an int and a float; [None] when one
    side is NaN. *)
Definition compare_int_SF (a : Z) (y : spec_float) : option comparison :=
  match y with
  | S754_nan => None
  | S754_infinity s => Some (if s then Gt else Lt)
  | S754_zero _ => Some (a ?= 0)
  | S754_finite s m e =>
      Some (match e with
            | Zneg k => Z.shiftl a (Zpos k) ?= cond_Zopp s (Zpos m)
            | _ => a ?= cond_Zopp s (Z.shiftl (Zpos m) e)
            end)
  end.

Definition compare (a b : num) : option comparison :=
  match a, b with
  | Int m, Int n => Some (m ?= n)
  | Float x, Float y => SFcompare (Prim2SF x) (Prim2SF y)
  | Int m, Float y => compare_int_SF m (Prim2SF y)
  | Float x, Int n => option_map CompOpp (compare_int_SF n (Prim2SF x))
  end.

Definition ltb (a b : num) : bool :=
  match compare a b with Some Lt => true | _ => false end.
Definition gtb (a b : num) : bool := ltb b a.
Definition geb (a b : num) : bool :=
  match compare a b with Some (Gt | Eq) => true | _ => false end.

(** [a / b], which is a float whatever the operands are *)
Definition truediv_float (a b : num) : result float :=
  match a, b with
  | Int m, Int n => int_truediv m n
  | Int m, Float y => x <- float_of_int m ;; float_truediv x y
  | Float x, Int n =>
      y <- float_of_int n ;;
      if n =? 0 then Raise (ZeroDivisionError "float division by zero")
      else ret (PrimFloat.div x y)
  | Float x, Float y => float_truediv x y
  end.

Definition truediv (a b : num) : result num :=
  q <- truediv_float a b ;; ret (Float q).

(** [int(a)] *)
Definition to_int (a : num) : result Z :=
  match a with
  | Int n => Ok n
  | Float x => int_of_float x
  end.

Definition arith (fz : Z -> Z -> Z) (ff : float -> float -> float)
  (a b : num) : result num :=
  match a, b with
  | Int m, Int n => ret (Int (fz m n))
  | _, _ => x <- to_float a ;; y <- to_float b ;; ret (Float (ff x y))
  end.

(** [a * b], [a - b] *)
Definition mul : num -> num -> result num := arith Z.mul PrimFloat.mul.
Definition sub : num -> num -> result num := arith Z.sub PrimFloat.sub.

(** [min(a, b)] returns [a] unless [b] is strictly smaller. *)
Definition min (a b : float) : float :=
  if PrimFloat.ltb b a then b else a.

(** [sum(xs)] over a list of floats: the running total starts from the
    int [0], which the first addition converts to [0.0]. *)
Definition sum (xs : list float) : float :=
  fold_left PrimFloat.add xs 0%float.

(** C's [fmod]: the exact remainder of [x / y], with the sign of [x]. *)
Definition fmod (x y : float) : float :=
  match Prim2SF x, Prim2SF y with
  | S754_nan, _ | _, S754_nan => nan
  | S754_infinity _, _ => nan
  | _, S754_zero _ => nan
  | _, S754_infinity _ => x
  | S754_zero _, _ => x
  | S754_finite sx mx ex, S754_finite _ my ey =>
      let e := Z.min ex ey in
      let r := Z.rem (Z.shiftl (Zpos mx) (ex - e)) (Z.shiftl (Zpos my) (ey - e)) in
      SF2Prim (binary_normalize prec emax (cond_Zopp sx r) e sx)
  end.

(** C's [floor]. *)
Definition floor (x : float) : float :=
  match Prim2SF x with
  | S754_finite s m (Zneg k) =>
      SF2Prim (binary_normalize prec emax
                 (Z.shiftr (cond_Zopp s (Zpos m)) (Zpos k)) 0 s)
  | _ => x
  end.

Definition copysign0 (y : float) : float :=
  if get_sign y then (-0)%float else 0%float.

(** [divmod(vx, wx)] on floats, following the interpreter: the remainder is
    taken with [fmod] and given the sign of [wx], the quotient is snapped to
    the nearest integral value. *)
Definition float_divmod (vx wx : float) : result (float * float) :=
  if PrimFloat.eqb wx 0 then Raise (ZeroDivisionError "float divmod()")
  else
    let md := fmod vx wx in
    let dv := PrimFloat.div (PrimFloat.sub vx md) wx in
    let '(md, dv) :=
      if PrimFloat.eqb md 0 then (copysign0 wx, dv)
      else if negb (Bool.eqb (PrimFloat.ltb wx 0) (PrimFloat.ltb md 0))
           then (PrimFloat.add md wx, PrimFloat.sub dv 1)
           else (md, dv) in
    let floordiv :=
      if PrimFloat.eqb dv 0 then copysign0 (PrimFloat.div vx wx)
      else
        let f := floor dv in
        if PrimFloat.ltb 0.5 (PrimFloat.sub dv f) then PrimFloat.add f 1 else f in
    Ok (floordiv, md).

(** [divmod(a, b)] *)
Definition divmod (a b : num) : result (num * num) :=
  match a, b with
  | Int m, Int n =>
      if n =? 0 then Raise (ZeroDivisionError "integer division or modulo by zero")
      else Ok (Int (m / n), Int (m mod n))
  | _, _ =>
      x <- to_float a ;; y <- to_float b ;;
      '(q, r) <- float_divmod x y ;;
      ret (Float q, Float r)
  end.

(** [m % n] on two ints *)
Definition int_mod (m n : Z) : result Z :=
  if n =? 0 then Raise (ZeroDivisionError "integer modulo by zero")
  else Ok (m mod n).

(** *** Strings and format specifications *)

Fixpoint repeat_string (s : string) (n : nat) : string :=
  match n with
  | O => ""
  | S n' => s ++ repeat_string s n'
  end.

(** [s * n]: the empty string when [n] is not positive. *)
Definition str_mul (s : string) (n : Z) : string := repeat_string s (Z.to_nat n).

Definition rjust (w : nat) (s : string) : string :=
  repeat_string " " (w - String.length s) ++ s.
Definition ljust (w : nat) (s : string) : string :=
  s ++ repeat_string " " (w - String.length s).
Definition center (w : nat) (s : string) : string :=
  let pad := (w - String.length s)%nat in
  repeat_string " " (Nat.div2 pad) ++ s ++ repeat_string " " (pad - Nat.div2 pad).

Definition digits (n : Z) : string := NilZero.string_of_uint (N.to_uint (Z.to_N n)).

(** The digits of a natural number with a comma before every group of
    three, as the [,] option prints them. *)
Fixpoint group3 (rev_digits : list ascii) (k : nat) (acc : string) : string :=
  match rev_digits with
  | [] => acc
  | d :: ds =>
      match k with
      | 3%nat => group3 ds 1 (String d (String "," acc))
      | _ => group3 ds (S k) (String d acc)
      end
  end.
Definition digits_comma (n : Z) : string :=
  group3 (rev (list_ascii_of_string (digits n))) 0 "".

(** [n] scaled by [10^p] and rounded to an integer, ties to even, for
    [n = m * 2^e]. *)
Definition scaled_round (p : nat) (m : positive) (e : Z) : Z :=
  let n := Zpos m * 10 ^ Z.of_nat p in
  match e with
  | Zneg k =>
      let d := 2 ^ Zpos k in
      let q := n / d in
      match 2 * (n mod d) ?= d with
      | Lt => q
      | Gt => q + 1
      | Eq => if Z.even q then q else q + 1
      end
  | _ => n * 2 ^ e
  end.

Definition fixed_digits (comma : bool) (p : nat) (q : Z) : string :=
  let ip := q / 10 ^ Z.of_nat p in
  let fp := digits (q mod 10 ^ Z.of_nat p) in
  (if comma then digits_comma ip else digits ip) ++
  match p with
  | O => ""
  | _ => "." ++ repeat_string "0" (p - String.length fp) ++ fp
  end.

Definition sign_string (s : bool) : string := if s then "-" else "".

(** The presentation type [f] with precision [p] on a float. *)
Definition fixed (comma : bool) (p : nat) (x : float) : string :=
  match Prim2SF x with
  | S754_nan => "nan"
  | S754_infinity s => sign_string s ++ "inf"
  | S754_zero s => sign_string s ++ fixed_digits comma p 0
  | S754_finite s m e => sign_string s ++ fixed_digits comma p (scaled_round p m e)
  end.

(** [f"{a:.pf}"], [f"{a:w.pf}"] and [f"{a:,.pf}"]: an int is converted to a
    float first. *)
Definition format_f (p : nat) (a : num) : result string :=
  x <- to_float a ;; ret (fixed false p x).
Definition format_wf (w p : nat) (a : num) : result string :=
  x <- to_float a ;; ret (rjust w (fixed false p x)).
Definition format_comma_f (p : nat) (a : num) : result string :=
  x <- to_float a ;; ret (fixed true p x).

(** [f"{n:,}"] on an int *)
Definition format_comma (n : Z) : string :=
  sign_string (n <? 0) ++ digits_comma (Z.abs n).

End Py.

Definition CR : string := String (ascii_of_nat 13) "".
Definition LF : string := String (ascii_of_nat 10) "".

(** ** The environment and the output *)

(** What the program reads from outside: every reader is asked with the
    number of readings made so far, so successive calls may answer
    differently.  [perf_counter_ns] is a signed 64-bit count of nanoseconds. *)
Record Env : Type := {
  time_time : nat -> float;
  process_time : nat -> float;
  perf_counter_ns : nat -> Z;
  perf_counter_ns_range : forall k, 0 <= perf_counter_ns k < 2 ^ 63;
  strftime_now : string -> nat -> string;
  sys_version_first_word : string;
  sys_platform : string;
  input : string -> nat -> string
}.

Record World : Type := {
  readings : nat;
  stdout : list string
}.

Definition IO : Type -> Type := M World.

Definition read {A : Type} (f : nat -> A) : IO A :=
  fun w => (Ok (f (readings w)),
            {| readings := S (readings w); stdout := stdout w |}).

(** [sys.stdout.write(s)] *)
Definition write (s : string) : IO unit :=
  fun w => (Ok tt, {| readings := readings w; stdout := (stdout w ++ [s])%list |}).

(** [print(s)] *)
Definition print (s : string) : IO unit := write (s ++ LF).

Import Py.

(** The three printing helpers.  Keys and titles are ASCII in this program,
    so that the padding counts characters. *)
Definition print_header (text emoji : string) : IO unit :=
  print (LF ++ str_mul "═" 80) ;;;
  print (emoji ++ " " ++ center 74 text ++ " " ++ emoji) ;;;
  print (str_mul "═" 80).

Definition print_section (title emoji : string) : IO unit :=
  print (LF ++ emoji ++ " " ++ title) ;;;
  print (str_mul "─" 50).

Definition print_info (key value emoji : string) : IO unit :=
  print ("   " ++ emoji ++ " " ++ ljust 25 key ++ ": " ++ value).

(** ** class AdvancedProgressBar *)

Module AdvancedProgressBar.

Record t : Type := {
  total : Z;
  desc : string;
  bar_length : Z;
  start_time : float;
  current : Z;
  iteration_times : list float
}.

Definition set_current (v : Z) (self : t) : t :=
  {| total := total self; desc := desc self; bar_length := bar_length self;
     start_time := start_time self; current := v;
     iteration_times := iteration_times self |}.

Definition set_iteration_times (v : list float) (self : t) : t :=
  {| total := total self; desc := desc self; bar_length := bar_length self;
     start_time := start_time self; current := current self;
     iteration_times := v |}.

(** A method runs on the object and the world. *)
Definition Method : Type -> Type := M (t * World).

Definition io {A : Type} (c : IO A) : Method A :=
  fun s => let '(r, w) := c (snd s) in (r, (fst s, w)).
Definition this : Method t := fun s => (Ok (fst s), s).
Definition assign (f : t -> t) : Method unit := fun s => (Ok tt, (f (fst s), snd s)).

(** [obj.method(...)] from a function: the object the call leaves behind
    is handed back with the value. *)
Definition call {A : Type} (m : Method A) (obj : t) : IO (A * t) :=
  fun w => match m (obj, w) with
           | (Ok a, (obj', w')) => (Ok (a, obj'), w')
           | (Raise e, (_, w')) => (Raise e, w')
           end.

(** [format_time(self, seconds)] *)
Definition format_time (seconds : num) : result string :=
  if ltb seconds (Int 60) then
    s <- format_f 1 seconds ;; ret (s ++ "s")
  else if ltb seconds (Int 3600) then
    '(m, s) <- divmod seconds (Int 60) ;;
    ms <- format_f 0 m ;; ss <- format_f 0 s ;;
    ret (ms ++ "m " ++ ss ++ "s")
  else
    '(h, m) <- divmod seconds (Int 3600) ;;
    '(m, s) <- divmod m (Int 60) ;;
    hs <- format_f 0 h ;; ms <- format_f 0 m ;;
    ret (hs ++ "h " ++ ms ++ "m").

(** Lines 21-25 of [update]: the progress, the number of filled cells and
    the bar. *)
Definition render_bar (self : t) (current : Z) : result (float * Z * string) :=
  q <- int_truediv current (total self) ;;
  let progress := min q 1 in
  x <- mul (Int (bar_length self)) (Float progress) ;;
  filled_length <- to_int x ;;
  let bar := str_mul "█" filled_length ++
             str_mul "▒" (bar_length self - filled_length) in
  ret (progress, filled_length, bar).

(** Lines 32-41 of [update]: the throughput and the time remaining. *)
Definition speed_and_eta (self : t) (current : Z) (progress elapsed_time : float)
  : result (num * num) :=
  if gtb (Float elapsed_time) (Int 0) then
    speed <- truediv (Int current) (Float elapsed_time) ;;
    eta <-
      (if 2 <=? Z.of_nat (List.length (iteration_times self)) then
         avg_iteration_time <-
           truediv (Float (sum (iteration_times self)))
                   (Int (Z.of_nat (List.length (iteration_times self)))) ;;
         if current >? 0 then mul avg_iteration_time (Int (total self - current))
         else ret (Int 0)
       else
         if gtb (Float progress) (Int 0) then
           a <- sub (Int 1) (Float progress) ;;
           b <- mul (Float elapsed_time) a ;;
           truediv b (Float progress)
         else ret (Int 0)) ;;
    ret (speed, eta)
  else ret (Int 0, Int 0).

(** Lines 44-49 of [update] *)
Definition format_eta (eta : num) : result string :=
  if ltb eta (Int 60) then
    s <- format_f 1 eta ;; ret (s ++ "s")
  else if ltb eta (Int 3600) then
    q <- truediv eta (Int 60) ;; s <- format_f 1 q ;; ret (s ++ "m")
  else
    q <- truediv eta (Int 3600) ;; s <- format_f 1 q ;; ret (s ++ "h").

(** Lines 60-65 of [update]: the sample is appended, and the oldest one
    dropped once more than 100 are held. *)
Definition record_iteration_time (current : Z) (elapsed_time : float)
  (samples : list float) : result (list float) :=
  if current >? 0 then
    iter_time <- truediv_float (Float elapsed_time) (Int current) ;;
    let samples := (samples ++ [iter_time])%list in
    ret (if 100 <? Z.of_nat (List.length samples) then tl samples else samples)
  else ret samples.

Section Methods.

Variable env : Env.

(** [__init__(self, total, desc, bar_length)] *)
Definition init (total : Z) (desc : string) (bar_length : Z) : IO t :=
  now <- read (time_time env) ;;
  ret {| total := total; desc := desc; bar_length := bar_length;
         start_time := now; current := 0; iteration_times := [] |}.

(** [update(self, current)] *)
Definition update (current : Z) : Method unit :=
  assign (set_current current) ;;;
  self <- this ;;
  '(progress, filled_length, bar) <- lift (render_bar self current) ;;
  now <- io (read (time_time env)) ;;
  let elapsed_time := PrimFloat.sub now (start_time self) in
  current_time <- io (read (strftime_now env "%H:%M:%S")) ;;
  '(speed, eta) <- lift (speed_and_eta self current progress elapsed_time) ;;
  eta_str <- lift (format_eta eta) ;;
  percent <- lift (p <- mul (Float progress) (Int 100) ;; format_wf 6 2 p) ;;
  speed_str <- lift (format_wf 7 0 speed) ;;
  elapsed_str <- lift (format_time (Float elapsed_time)) ;;
  let progress_line :=
    CR ++ "⏳ " ++ desc self ++ " |" ++ bar ++ "| " ++ percent ++ "% "
    ++ "| ⚡ " ++ speed_str ++ "/s | 🕐 " ++ elapsed_str ++ " "
    ++ "| 🎯 ETA: " ++ eta_str ++ " | 🕒 " ++ current_time in
  io (write progress_line) ;;;
  samples <- lift (record_iteration_time current elapsed_time (iteration_times self)) ;;
  assign (set_iteration_times samples).

(** [finish(self)] *)
Definition finish : Method unit :=
  self <- this ;;
  update (total self) ;;;
  now <- io (read (time_time env)) ;;
  let elapsed := PrimFloat.sub now (start_time self) in
  s <- lift (format_time (Float elapsed)) ;;
  io (print (LF ++ "✅ Completed in " ++ s)).

End Methods.

End AdvancedProgressBar.

(** ** The module-level functions *)

Record PerformanceData : Type := {
  start_memory : Z;
  cycle_times : list float;
  batch_start : float
}.

(** [range(n)] *)
Definition range (n : Z) : list Z := map Z.of_nat (seq 0 (Z.to_nat n)).

(** Line 134: the value is never read; [math.sqrt(i)] converts [i] to a
    float, which is the one step of the line that can raise. *)
Definition simulate_work (i : Z) : result unit :=
  if i >? 0 then float_of_int i ;;; ret tt else ret tt.

(** [format_time(nanoseconds)] *)
Definition format_time (nanoseconds : num) : result string :=
  seconds <- truediv nanoseconds (Int 1000000000) ;;
  if ltb seconds (Float 1e-9) then
    s <- format_f 0 nanoseconds ;; ret (s ++ " ns")
  else if ltb seconds (Float 1e-6) then
    q <- truediv nanoseconds (Int 1000) ;; s <- format_f 2 q ;; ret (s ++ " µs")
  else if ltb seconds (Float 1e-3) then
    q <- truediv nanoseconds (Int 1000000) ;; s <- format_f 2 q ;; ret (s ++ " ms")
  else if ltb seconds (Int 1) then
    s <- format_f 6 seconds ;; ret (s ++ " s")
  else if ltb seconds (Int 60) then
    s <- format_f 3 seconds ;; ret (s ++ " s")
  else
    '(m, s) <- divmod seconds (Int 60) ;;
    if ltb m (Int 60) then
      ms <- format_f 0 m ;; ss <- format_f 0 s ;;
      ret (ms ++ "m " ++ ss ++ "s")
    else
      '(h, m) <- divmod m (Int 60) ;;
      hs <- format_f 0 h ;; ms <- format_f 0 m ;;
      ret (hs ++ "h " ++ ms ++ "m").

Record Metrics : Type := {
  total_time : num;
  cpu_time : num;
  cycles_per_second : num;
  seconds_per_cycle : num;
  cpu_efficiency : num;
  rating : string;
  rating_emoji : string
}.

(** Lines 198-216: the rating and its emoji. *)
Definition performance_rating (cps : num) : string * string :=
  if geb cps (Int 10000000) then ("🚀 EXTREME", "🚀")
  else if geb cps (Int 1000000) then ("⭐ EXCELLENT", "⭐")
  else if geb cps (Int 100000) then ("💪 GREAT", "💪")
  else if geb cps (Int 10000) then ("👍 GOOD", "👍")
  else if geb cps (Int 1000) then ("📊 AVERAGE", "📊")
  else ("🐢 SLOW", "🐢").

(** [calculate_performance_metrics(num_cycles, total_time_sec, cpu_time_sec)] *)
Definition calculate_performance_metrics (num_cycles total_time_sec cpu_time_sec : num)
  : result Metrics :=
  cps <- (if gtb total_time_sec (Int 0) then truediv num_cycles total_time_sec
          else ret (Int 0)) ;;
  spc <- (if gtb num_cycles (Int 0) then truediv total_time_sec num_cycles
          else ret (Int 0)) ;;
  eff <- (if gtb total_time_sec (Int 0)
          then q <- truediv cpu_time_sec total_time_sec ;; mul q (Int 100)
          else ret (Int 0)) ;;
  let '(r, e) := performance_rating cps in
  ret {| total_time := total_time_sec; cpu_time := cpu_time_sec;
         cycles_per_second := cps; seconds_per_cycle := spc;
         cpu_efficiency := eff; rating := r; rating_emoji := e |}.

Definition test_cycles : list Z :=
  [100; 1000; 10000; 100000; 1000000; 10000000; 100000000].

(** Lines 252-268: the estimate for one cycle count, and its display. *)
Definition prediction (time_per_cycle : num) (cycles : Z)
  : result (num * string * string) :=
  estimated_time <- mul time_per_cycle (Int cycles) ;;
  if ltb estimated_time (Float 0.001) then
    x <- mul estimated_time (Float 1e6) ;; s <- format_f 1 x ;;
    ret (estimated_time, s ++ " µs", "⚡")
  else if ltb estimated_time (Int 1) then
    x <- mul estimated_time (Int 1000) ;; s <- format_f 1 x ;;
    ret (estimated_time, s ++ " ms", "🚀")
  else if ltb estimated_time (Int 60) then
    s <- format_f 2 estimated_time ;;
    ret (estimated_time, s ++ " s", "⏱️")
  else if ltb estimated_time (Int 3600) then
    x <- truediv estimated_time (Int 60) ;; s <- format_f 1 x ;;
    ret (estimated_time, s ++ " min", "📊")
  else
    x <- truediv estimated_time (Int 3600) ;; s <- format_f 2 x ;;
    ret (estimated_time, s ++ " hours", "💤").

(** [display_predictions(num_cycles, metrics)] *)
Definition display_predictions (num_cycles : Z) (metrics : Metrics) : IO unit :=
  print_section "PERFORMANCE PREDICTIONS" "🔮" ;;;
  let time_per_cycle := seconds_per_cycle metrics in
  for_each test_cycles (fun cycles =>
    if cycles >? num_cycles then
      '(_, time_str, emoji) <- lift (prediction time_per_cycle cycles) ;;
      print_info (rjust 12 (format_comma cycles) ++ " cycles")
                 (time_str ++ " " ++ emoji) "📅"
    else ret tt).

Section Functions.

Variable env : Env.

(** Lines 131-145: the body of the loop of [perform_cycles], for one [i]. *)
Definition cycle (num_cycles batch_size : Z) (i : Z)
  (st : AdvancedProgressBar.t * PerformanceData)
  : IO (AdvancedProgressBar.t * PerformanceData) :=
  let '(progress_bar, performance_data) := st in
  lift (simulate_work i) ;;;
  r <- lift (int_mod i batch_size) ;;
  if (r =? 0) || (i =? num_cycles - 1) then
    '(_, progress_bar) <-
      AdvancedProgressBar.call (AdvancedProgressBar.update env (i + 1)) progress_bar ;;
    r <- lift (int_mod i (num_cycles / 10)) ;;
    if (r =? 0) && (i >? 0) then
      current_time <- read (time_time env) ;;
      let batch_time := PrimFloat.sub current_time (batch_start performance_data) in
      t <- lift (truediv_float (Float batch_time) (Int batch_size)) ;;
      ret (progress_bar,
           {| start_memory := start_memory performance_data;
              cycle_times := (cycle_times performance_data ++ [t])%list;
              batch_start := current_time |})
    else ret (progress_bar, performance_data)
  else ret (progress_bar, performance_data).

Fixpoint cycles (num_cycles batch_size : Z) (indices : list Z)
  (st : AdvancedProgressBar.t * PerformanceData)
  : IO (AdvancedProgressBar.t * PerformanceData) :=
  match indices with
  | [] => ret st
  | i :: rest =>
      st' <- cycle num_cycles batch_size i st ;;
      cycles num_cycles batch_size rest st'
  end.

(** [perform_cycles(num_cycles)] *)
Definition perform_cycles (num_cycles : Z) : IO (Z * float * float * PerformanceData) :=
  print_header ("EXECUTING " ++ format_comma num_cycles ++ " CYCLES") "🚀" ;;;
  print_section "EXECUTION INFORMATION" "⚙️" ;;;
  now <- read (strftime_now env "%Y-%m-%d %H:%M:%S") ;;
  print_info "Start Time" now "🕒" ;;;
  print_info "Total Cycles" (format_comma num_cycles) "🔢" ;;;
  print_info "Estimated Memory" "Minimal" "💾" ;;;
  start_time <- read (perf_counter_ns env) ;;
  start_cpu_time <- read (process_time env) ;;
  progress_bar <- AdvancedProgressBar.init env num_cycles "Processing" 40 ;;
  batch_start <- read (time_time env) ;;
  let performance_data :=
    {| start_memory := 0; cycle_times := []; batch_start := batch_start |} in
  print_section "REAL-TIME PROGRESS" "📈" ;;;
  let batch_size := Z.max 1 (Z.min (num_cycles / 100) 10000) in
  '(progress_bar, performance_data) <-
    cycles num_cycles batch_size (range num_cycles) (progress_bar, performance_data) ;;
  AdvancedProgressBar.call (AdvancedProgressBar.finish env) progress_bar ;;;
  end_time <- read (perf_counter_ns env) ;;
  end_cpu_time <- read (process_time env) ;;
  let total_time_ns := end_time - start_time in
  total_time_sec <- lift (int_truediv total_time_ns 1000000000) ;;
  let cpu_time_sec := PrimFloat.sub end_cpu_time start_cpu_time in
  ret (total_time_ns, total_time_sec, cpu_time_sec, performance_data).

(** [display_detailed_results(num_cycles, total_ns, total_sec, cpu_time_sec, metrics)] *)
Definition display_detailed_results (num_cycles total_ns : Z)
  (total_sec cpu_time_sec : float) (metrics : Metrics) : IO unit :=
  print_header "DETAILED PERFORMANCE RESULTS" "📊" ;;;
  print_section "TIMING INFORMATION" "⏱️" ;;;
  s <- lift (format_time (Int total_ns)) ;;
  print_info "Total Execution Time" s "⏰" ;;;
  print_info "CPU Processing Time" (fixed false 6 cpu_time_sec ++ " s") "⚡" ;;;
  print_info "Wall Clock Time" (fixed false 6 total_sec ++ " s") "🕐" ;;;
  s <- lift (format_f 1 (cpu_efficiency metrics)) ;;
  print_info "CPU Efficiency" (s ++ "%") "🎯" ;;;
  print_section "PERFORMANCE METRICS" "📈" ;;;
  s <- lift (format_comma_f 0 (cycles_per_second metrics)) ;;
  print_info "Cycles per Second" s "🔁" ;;;
  s <- lift (x <- mul (seconds_per_cycle metrics) (Float 1e9) ;; format_time x) ;;
  print_info "Time per Cycle" s "⏳" ;;;
  print_info "Performance Rating" (rating metrics ++ " " ++ rating_emoji metrics) "🏆" ;;;
  print_section "SYSTEM INFORMATION" "💻" ;;;
  print_info "Python Version" (sys_version_first_word env) "🐍" ;;;
  print_info "Platform" (sys_platform env) "🖥️" ;;;
  now <- read (strftime_now env "%Y-%m-%d %H:%M:%S") ;;
  print_info "Completion Time" now "✅".

(** [s.lower()], on the ASCII letters: enough to decide whether the answer
    is one of ['y', 'yes']. *)
Definition lower_ascii (c : ascii) : ascii :=
  let n := nat_of_ascii c in
  if ((65 <=? n) && (n <=? 90))%nat then ascii_of_nat (n + 32) else c.

Fixpoint lower (s : string) : string :=
  match s with
  | EmptyString => EmptyString
  | String c s' => String (lower_ascii c) (lower s')
  end.

(** Lines 297-306 of [main]: whether the run goes ahead. *)
Definition large_number_warning (num_cycles : Z) : IO bool :=
  if num_cycles >? 1000000 then
    print_section "WARNING" "⚠️" ;;;
    print "Large number of cycles detected!" ;;;
    estimated_time <- lift (int_truediv num_cycles 1000000) ;;
    (if gtb (Float estimated_time) (Int 10)
     then print ("⚠️  This may take approximately "
                 ++ fixed false 1 estimated_time ++ " seconds or more")
     else ret tt) ;;;
    answer <- read (input env "Continue? (y/N): ") ;;
    let confirm := lower answer in
    if String.eqb confirm "y" || String.eqb confirm "yes" then ret true
    else print "Operation cancelled." ;;; ret false
  else ret true.

(** [main()], entered with the count that the prompt loop of lines 280-294
    accepted (an int above zero).  [KeyboardInterrupt] is raised by a signal
    from outside and has no source here; every exception of the model is an
    [Exception] and reaches the second handler. *)
Definition main (num_cycles : Z) : IO unit :=
  print_header "ADVANCED CYCLE EXECUTION TIME ANALYZER" "🔬" ;;;
  print "Welcome to the comprehensive performance analysis tool!" ;;;
  print "This program measures execution time with nanosecond precision" ;;;
  print ("and provides detailed performance metrics and predictions." ++ LF) ;;;
  try
    (proceed <- large_number_warning num_cycles ;;
     if proceed : bool then
       '(total_ns, total_sec, cpu_time_sec, performance_data) <-
         perform_cycles num_cycles ;;
       metrics <- lift (calculate_performance_metrics
                          (Int num_cycles) (Float total_sec) (Float cpu_time_sec)) ;;
       display_detailed_results num_cycles total_ns total_sec cpu_time_sec metrics ;;;
       display_predictions num_cycles metrics ;;;
       print_header "EXECUTION COMPLETE" "🎉" ;;;
       print ("✅ Successfully completed " ++ format_comma num_cycles ++ " cycles") ;;;
       s <- lift (format_comma_f 0 (cycles_per_second metrics)) ;;
       print ("⚡ Performance: " ++ s ++ " cycles/second") ;;;
       print ("🏆 Rating: " ++ rating metrics)
     else ret tt)
    (fun e =>
       print (LF ++ "❌ An error occurred: " ++ exn_message e) ;;;
       print "Please try again with a different number of cycles.").

End Functions.

(** * Properties *)

(** [ok_binds H]: in [H : c = Ok _], every computation that [c] sequences
    returned a value. *)
Ltac ok_binds H :=
  cbn [bind ret result_Monad] in H;
  repeat match type of H with
         | match ?c with Ok _ => _ | Raise _ => _ end = _ =>
             destruct c eqn:?; cbn [bind ret result_Monad] in H;
             [| discriminate H]
         end.

(** ** Division is guarded *)

Definition raises_zero_division {A : Type} (r : result A) : Prop :=
  exists msg, r = Raise (ZeroDivisionError msg).

Lemma Prim2SF_zero : Prim2SF 0 = S754_zero false.
Proof. reflexivity. Qed.

(** A float above the int 0 is not a zero. *)
Lemma positive_float_nonzero (x : float) :
  gtb (Float x) (Int 0) = true -> PrimFloat.eqb x 0 = false.
Proof.
  unfold gtb, ltb, compare. rewrite eqb_spec, Prim2SF_zero.
  destruct (Prim2SF x) as [s | s | | s m e]; try destruct s;
    intro H; try reflexivity; discriminate H.
Qed.

Lemma positive_int_nonzero (n : Z) :
  gtb (Int n) (Int 0) = true -> (n =? 0) = false.
Proof.
  unfold gtb, ltb, compare. destruct (Z.compare_spec 0 n); try discriminate.
  intros _. apply Z.eqb_neq. lia.
Qed.

(** A division whose divisor was tested to be above 0 does not raise
    [ZeroDivisionError]. *)
Lemma truediv_float_guarded (a b : num) :
  gtb b (Int 0) = true -> ~ raises_zero_division (truediv_float a b).
Proof.
  intros Hb [msg H]. destruct a as [m | x], b as [n | y]; cbn in H.
  - unfold int_truediv in H. rewrite (positive_int_nonzero _ Hb) in H.
    destruct (Z.abs m <? overflow_bound * Z.abs n); discriminate.
  - unfold float_of_int, float_truediv in H.
    rewrite (positive_float_nonzero _ Hb) in H.
    destruct (Z.abs m <? overflow_bound); cbn in H; discriminate.
  - unfold float_of_int in H. rewrite (positive_int_nonzero _ Hb) in H.
    destruct (Z.abs n <? overflow_bound); cbn in H; discriminate.
  - unfold float_truediv in H. rewrite (positive_float_nonzero _ Hb) in H.
    discriminate.
Qed.

Lemma truediv_guarded (a b : num) :
  gtb b (Int 0) = true -> ~ raises_zero_division (truediv a b).
Proof.
  intros Hb [msg H]. apply (truediv_float_guarded a b Hb).
  unfold truediv in H. destruct (truediv_float a b); cbn in H;
    [discriminate | exists msg; congruence].
Qed.

Lemma arith_no_zero_division fz ff (a b : num) :
  ~ raises_zero_division (arith fz ff a b).
Proof.
  intros [msg H]. unfold arith, to_float, float_of_int in H.
  destruct a as [m | x], b as [n | y];
    repeat match type of H with
           | context [Z.abs ?k <? overflow_bound] =>
               destruct (Z.abs k <? overflow_bound)
           end; cbn [bind ret result_Monad] in H; discriminate H.
Qed.

(** ** The rating tiers (C3) *)

(** The tiers as the specification lists them: thresholds in descending
    order, each with its rating. *)
Definition rating_thresholds : list (Z * string) :=
  [ (10000000, "🚀 EXTREME"); (1000000, "⭐ EXCELLENT"); (100000, "💪 GREAT");
    (10000, "👍 GOOD"); (1000, "📊 AVERAGE") ].

(** The rating of the specification: that of the first threshold, in
    descending order, which the throughput meets or exceeds; SLOW when it
    meets none. *)
Definition spec_rating (cps : num) : string :=
  match find (fun t => geb cps (Int (fst t))) rating_thresholds with
  | Some t => snd t
  | None => "🐢 SLOW"
  end.

Lemma performance_rating_spec (cps : num) :
  fst (performance_rating cps) = spec_rating cps.
Proof.
  unfold performance_rating, spec_rating, rating_thresholds, find, fst, snd.
  repeat match goal with
         | |- context [geb cps ?t] => destruct (geb cps t)
         end; reflexivity.
Qed.

Lemma metrics_rating (num_cycles total_time_sec cpu_time_sec : num) (m : Metrics) :
  calculate_performance_metrics num_cycles total_time_sec cpu_time_sec = Ok m ->
  rating m = fst (performance_rating (cycles_per_second m)).
Proof.
  unfold calculate_performance_metrics. intro H.
  ok_binds H.
  match type of H with context [performance_rating ?c] =>
    destruct (performance_rating c) eqn:E end.
  injection H as <-. cbn. now rewrite E.
Qed.

(** The throughput that is rated is the guarded quotient of line 191. *)
Lemma metrics_cycles_per_second (num_cycles total_time_sec cpu_time_sec : num)
  (m : Metrics) :
  calculate_performance_metrics num_cycles total_time_sec cpu_time_sec = Ok m ->
  (if gtb total_time_sec (Int 0) then truediv num_cycles total_time_sec
   else Ok (Int 0)) = Ok (cycles_per_second m).
Proof.
  unfold calculate_performance_metrics. intro H.
  destruct (if gtb total_time_sec (Int 0) then truediv num_cycles total_time_sec
            else ret (Int 0)) as [cps |] eqn:Ec;
    cbn [bind ret result_Monad] in H; [| discriminate H].
  ok_binds H.
  destruct (performance_rating cps). injection H as <-.
  cbn [cycles_per_second]. exact Ec.
Qed.

(** The runs at which the tiers are tried: a count of cycles, the seconds
    they took and the rating expected for the resulting throughput. *)
Definition rated_runs : list (Z * float * Z * string) :=
  [ (10000000, 1%float, 10000000, "🚀 EXTREME");
    (1000000, 1%float, 1000000, "⭐ EXCELLENT");
    (100000, 1%float, 100000, "💪 GREAT");
    (10000, 1%float, 10000, "👍 GOOD");
    (1000, 1%float, 1000, "📊 AVERAGE");
    (999, 1%float, 999, "🐢 SLOW");
    (5000000, 0.5%float, 10000000, "🚀 EXTREME");
    (2000, 2%float, 1000, "📊 AVERAGE");
    (1998, 2%float, 999, "🐢 SLOW") ].

(** [rated run]: the summarizer returns metrics for the run, whose
    throughput is exactly the expected one and whose rating is the expected
    one. *)
Definition rated (run : Z * float * Z * string) : bool :=
  let '(num_cycles, total_time_sec, cps, label) := run in
  match calculate_performance_metrics (Int num_cycles) (Float total_time_sec)
          (Float 0.5) with
  | Ok m =>
      match compare (cycles_per_second m) (Int cps) with
      | Some Eq => String.eqb (rating m) label
      | _ => false
      end
  | Raise _ => false
  end.

(** C3: the summarizer rates the throughput that it computed, and the
    rating is the one of the highest threshold that this throughput meets,
    the thresholds being tried in descending order.  A throughput of exactly
    1e7, 1e6, 1e5, 1e4, 1e3 (as an int or as a float) is rated EXTREME,
    EXCELLENT, GREAT, GOOD, AVERAGE, and 999 is rated SLOW; and so are the
    runs that the summarizer is given with these throughputs. *)
Theorem rating_tiers :
  (forall num_cycles total_time_sec cpu_time_sec m,
      calculate_performance_metrics num_cycles total_time_sec cpu_time_sec = Ok m ->
      (if gtb total_time_sec (Int 0) then truediv num_cycles total_time_sec
       else Ok (Int 0)) = Ok (cycles_per_second m) /\
      rating m = spec_rating (cycles_per_second m)) /\
  (forall cps, In cps [Int 10000000; Float 1e7] ->
               fst (performance_rating cps) = "🚀 EXTREME") /\
  (forall cps, In cps [Int 1000000; Float 1e6] ->
               fst (performance_rating cps) = "⭐ EXCELLENT") /\
  (forall cps, In cps [Int 100000; Float 1e5] ->
               fst (performance_rating cps) = "💪 GREAT") /\
  (forall cps, In cps [Int 10000; Float 1e4] ->
               fst (performance_rating cps) = "👍 GOOD") /\
  (forall cps, In cps [Int 1000; Float 1e3] ->
               fst (performance_rating cps) = "📊 AVERAGE") /\
  (forall cps, In cps [Int 999; Float 999] ->
               fst (performance_rating cps) = "🐢 SLOW") /\
  (forall run, In run rated_runs -> rated run = true).
Proof.
  split.
  - intros nc t c m H. split.
    + exact (metrics_cycles_per_second _ _ _ _ H).
    + rewrite (metrics_rating _ _ _ _ H). apply performance_rating_spec.
  - do 6 (split; [intros cps [<- | [<- | []]]; vm_compute; reflexivity |]).
    intros run Hin. apply (proj1 (forallb_forall rated rated_runs)); [| exact Hin].
    vm_compute. reflexivity.
Qed.

(** Ten million cycles in one second are rated EXTREME, and 1998 cycles in
    two seconds SLOW. *)
Lemma rating_tiers_witness :
  (exists m, calculate_performance_metrics (Int 10000000) (Float 1) (Float 0.5) = Ok m /\
             cycles_per_second m = Float 1e7 /\ rating m = "🚀 EXTREME") /\
  rated (1998, 2%float, 999, "🐢 SLOW") = true /\
  fst (performance_rating (Float 1e7)) = "🚀 EXTREME".
Proof.
  destruct rating_tiers as (T & E7 & _ & _ & _ & _ & _ & R).
  split; [| split].
  - destruct (calculate_performance_metrics (Int 10000000) (Float 1) (Float 0.5))
      as [m |] eqn:E; [| vm_compute in E; discriminate E].
    exists m. destruct (T _ _ _ m E) as [Hc Hr]. split; [reflexivity |].
    assert (Hq : (if gtb (Float 1) (Int 0) then truediv (Int 10000000) (Float 1)
                  else Ok (Int 0)) = Ok (Float 1e7)) by (vm_compute; reflexivity).
    rewrite Hq in Hc. injection Hc as Hc. split; [now symmetry |].
    rewrite Hr, <- Hc. vm_compute. reflexivity.
  - apply R. vm_compute. tauto.
  - exact (E7 (Float 1e7) (or_intror (or_introl eq_refl))).
Defined.

(** ** The summarizer does not divide by zero (C5) *)

Lemma bind_no_zero_division {A B : Type} (r : result A) (k : A -> result B) :
  ~ raises_zero_division r ->
  (forall a, ~ raises_zero_division (k a)) ->
  ~ raises_zero_division (bind r k).
Proof.
  intros Hr Hk [msg H]. destruct r as [a | e]; cbn in H.
  - apply (Hk a). now exists msg.
  - apply Hr. exists msg. congruence.
Qed.

Lemma Ok_no_zero_division {A : Type} (a : A) : ~ raises_zero_division (Ok a).
Proof. intros [msg H]. discriminate H. Qed.

Lemma overflow_bound_pos : 0 < overflow_bound.
Proof. reflexivity. Qed.

Lemma shiftl_pos_pos (m : positive) (e : Z) : 0 <= e -> 0 < Z.shiftl (Zpos m) e.
Proof.
  intro He. rewrite Z.shiftl_mul_pow2 by exact He.
  apply Z.mul_pos_pos; [reflexivity | now apply Z.pow_pos_nonneg].
Qed.

(** The int 0 is not below a negative float. *)
Lemma zero_not_below_negative (m : positive) (e : Z) :
  compare_int_SF 0 (S754_finite true m e) <> Some Lt.
Proof.
  unfold compare_int_SF. destruct e as [| p | k].
  - discriminate.
  - pose proof (shiftl_pos_pos m (Zpos p) ltac:(discriminate)) as H.
    unfold cond_Zopp. destruct (Z.shiftl (Zpos m) (Zpos p)); [lia | discriminate | lia].
  - rewrite Z.shiftl_0_l. discriminate.
Qed.

(** [0 / b] for a [b] above zero is the float 0.0. *)
Lemma zero_truediv_positive (b : num) :
  gtb b (Int 0) = true -> truediv (Int 0) b = Ok (Float 0).
Proof.
  intro Hb. destruct b as [n | y]; unfold truediv, truediv_float.
  - unfold int_truediv. rewrite (positive_int_nonzero _ Hb).
    assert (Hn : 0 < Z.abs n).
    { pose proof (positive_int_nonzero _ Hb) as E. apply Z.eqb_neq in E. lia. }
    replace (Z.abs 0 <? overflow_bound * Z.abs n) with true.
    + destruct n as [| p | p]; [cbn in Hn; lia | reflexivity | ].
      unfold gtb, ltb, compare in Hb. cbn in Hb. discriminate Hb.
    + symmetry. apply Z.ltb_lt. pose proof overflow_bound_pos. cbn [Z.abs]. nia.
  - change (float_of_int 0) with (Ok 0%float). cbn [bind result_Monad].
    unfold float_truediv. rewrite (positive_float_nonzero _ Hb). cbn.
    do 2 f_equal. apply Prim2SF_inj. rewrite div_spec, Prim2SF_zero.
    unfold gtb, ltb, compare in Hb.
    destruct (Prim2SF y) as [s | s | | s m e]; try destruct s; try discriminate Hb;
      try reflexivity.
    exfalso. apply (zero_not_below_negative m e).
    destruct (compare_int_SF 0 (S754_finite true m e)) as [[ | | ] |];
      try discriminate Hb; reflexivity.
Qed.

Lemma not_gtb_zero_zero : gtb (Int 0) (Int 0) = false.
Proof. reflexivity. Qed.

(** With a float zero for total_time_sec the summarizer returns zeros as
    long as num_cycles, when it is an int, can be converted to a float. *)
Lemma summarizer_float_zero (num_cycles cpu_time_sec : num) (t : float) :
  compare (Float t) (Int 0) = Some Eq ->
  (forall n, num_cycles = Int n -> Z.abs n < overflow_bound) ->
  exists m, calculate_performance_metrics num_cycles (Float t) cpu_time_sec = Ok m /\
            cycles_per_second m = Int 0 /\ cpu_efficiency m = Int 0.
Proof.
  intros Ht Hn. unfold calculate_performance_metrics.
  assert (Hgt : gtb (Float t) (Int 0) = false).
  { unfold gtb, ltb, compare in *. cbn in Ht.
    destruct (compare_int_SF 0 (Prim2SF t)) as [[ | | ] |]; cbn in Ht;
      try discriminate Ht; reflexivity. }
  rewrite Hgt. cbn [bind ret result_Monad].
  destruct (gtb num_cycles (Int 0)) eqn:Hnc; cbn [bind ret result_Monad].
  - destruct num_cycles as [n | y]; unfold truediv, truediv_float.
    + unfold float_of_int. pose proof (Hn n eq_refl) as Hb.
      apply Z.ltb_lt in Hb. rewrite Hb. cbn [bind ret result_Monad].
      rewrite (positive_int_nonzero _ Hnc). cbn [bind ret result_Monad].
      destruct (performance_rating (Int 0)) as [r e]. eexists. repeat split.
    + unfold float_truediv. rewrite (positive_float_nonzero _ Hnc).
      cbn [bind ret result_Monad].
      destruct (performance_rating (Int 0)) as [r e]. eexists. repeat split.
  - destruct (performance_rating (Int 0)) as [r e]. eexists. repeat split.
Qed.

(** C5, as the claim states it, fails on the zero that the program passes,
    the float 0.0: for 2^1024 cycles the guarded division [0.0 / num_cycles]
    of line 192 converts the count to a float and raises OverflowError, and
    no metrics are returned. *)
Lemma summarizer_zero_time_overflow :
  calculate_performance_metrics (Int (2 ^ 1024)) (Float 0) (Float 0)
    = Raise (OverflowError "int too large to convert to float") /\
  ~ (forall num_cycles cpu_time_sec,
       exists m, calculate_performance_metrics num_cycles (Float 0) cpu_time_sec = Ok m /\
                 cycles_per_second m = Int 0 /\ cpu_efficiency m = Int 0).
Proof.
  assert (E : calculate_performance_metrics (Int (2 ^ 1024)) (Float 0) (Float 0)
              = Raise (OverflowError "int too large to convert to float"))
    by (vm_compute; reflexivity).
  split; [exact E |].
  intro H. destruct (H (Int (2 ^ 1024)) (Float 0)) as (m & Hm & _).
  rewrite E in Hm. discriminate Hm.
Qed.

(** C5, amended: with the int 0 for total_time_sec the summarizer returns,
    for every num_cycles and cpu_time_sec, metrics whose cycles_per_second
    and cpu_efficiency are 0; with a float zero it does so for every
    cpu_time_sec and every num_cycles that is a float or an int that can be
    converted to one (below 2^1024 - 2^970 in magnitude); and whatever its
    three arguments are, it does not raise ZeroDivisionError: each division
    is taken only after its divisor was found to be above zero. *)
Theorem summarizer_division_guarded :
  (forall num_cycles cpu_time_sec,
      exists m, calculate_performance_metrics num_cycles (Int 0) cpu_time_sec = Ok m /\
                cycles_per_second m = Int 0 /\ cpu_efficiency m = Int 0) /\
  (forall num_cycles cpu_time_sec t,
      compare (Float t) (Int 0) = Some Eq ->
      (forall n, num_cycles = Int n -> Z.abs n < overflow_bound) ->
      exists m, calculate_performance_metrics num_cycles (Float t) cpu_time_sec = Ok m /\
                cycles_per_second m = Int 0 /\ cpu_efficiency m = Int 0) /\
  (forall num_cycles total_time_sec cpu_time_sec,
      ~ raises_zero_division
          (calculate_performance_metrics num_cycles total_time_sec cpu_time_sec)).
Proof.
  split; [| split].
  - intros nc cpu. unfold calculate_performance_metrics.
    rewrite not_gtb_zero_zero. cbn [bind ret result_Monad].
    destruct (gtb nc (Int 0)) eqn:Hnc.
    + rewrite (zero_truediv_positive _ Hnc). cbn [bind ret result_Monad].
      destruct (performance_rating (Int 0)) as [r e]. eexists. repeat split.
    + cbn [bind ret result_Monad].
      destruct (performance_rating (Int 0)) as [r e]. eexists. repeat split.
  - intros nc cpu t Ht Hn. exact (summarizer_float_zero nc cpu t Ht Hn).
  - intros nc t cpu. unfold calculate_performance_metrics.
    apply bind_no_zero_division.
    { destruct (gtb t (Int 0)) eqn:Ht;
        [now apply truediv_guarded | apply Ok_no_zero_division]. }
    intro cps. apply bind_no_zero_division.
    { destruct (gtb nc (Int 0)) eqn:Hnc;
        [now apply truediv_guarded | apply Ok_no_zero_division]. }
    intro spc. apply bind_no_zero_division.
    { destruct (gtb t (Int 0)) eqn:Ht; [| apply Ok_no_zero_division].
      apply bind_no_zero_division; [now apply truediv_guarded |].
      intro q. apply arith_no_zero_division. }
    intro eff. destruct (performance_rating cps). apply Ok_no_zero_division.
Qed.

(** A thousand cycles, or a count given as the float 1e300, in 0.0 seconds
    (or in -0.0 seconds). *)
Lemma summarizer_division_guarded_witness :
  (exists m, calculate_performance_metrics (Int 1000) (Float 0) (Float 0.25) = Ok m /\
             cycles_per_second m = Int 0 /\ cpu_efficiency m = Int 0) /\
  (exists m, calculate_performance_metrics (Float 1e300) (Float (-0)) (Int 3) = Ok m /\
             cycles_per_second m = Int 0 /\ cpu_efficiency m = Int 0).
Proof.
  destruct summarizer_division_guarded as (_ & F & _).
  split.
  - apply (F (Int 1000) (Float 0.25) 0%float); [reflexivity |].
    intros n [= <-]. reflexivity.
  - apply (F (Float 1e300) (Int 3) (-0)%float); [reflexivity |].
    intros n H. discriminate H.
Defined.

(** ** The elapsed-time format (C8) *)

(** C8: [format_time] of the progress bar prints seconds below 60 with one
    decimal and the suffix s, seconds below 3600 as whole minutes and
    seconds, and anything else as whole hours and minutes; 0.5 gives "0.5s",
    90 gives "1m 30s" and 3700 gives "1h 1m". *)
Theorem elapsed_format_tiers :
  (forall seconds,
      ltb seconds (Int 60) = true ->
      AdvancedProgressBar.format_time seconds =
        (s <- format_f 1 seconds ;; ret (s ++ "s"))) /\
  (forall seconds,
      ltb seconds (Int 60) = false -> ltb seconds (Int 3600) = true ->
      AdvancedProgressBar.format_time seconds =
        ('(m, s) <- divmod seconds (Int 60) ;;
         ms <- format_f 0 m ;; ss <- format_f 0 s ;;
         ret (ms ++ "m " ++ ss ++ "s"))) /\
  (forall seconds,
      ltb seconds (Int 60) = false -> ltb seconds (Int 3600) = false ->
      AdvancedProgressBar.format_time seconds =
        ('(h, m) <- divmod seconds (Int 3600) ;;
         '(m, _) <- divmod m (Int 60) ;;
         hs <- format_f 0 h ;; ms <- format_f 0 m ;;
         ret (hs ++ "h " ++ ms ++ "m"))) /\
  AdvancedProgressBar.format_time (Float 0.5) = Ok "0.5s" /\
  AdvancedProgressBar.format_time (Float 90) = Ok "1m 30s" /\
  AdvancedProgressBar.format_time (Int 90) = Ok "1m 30s" /\
  AdvancedProgressBar.format_time (Float 3700) = Ok "1h 1m" /\
  AdvancedProgressBar.format_time (Int 3700) = Ok "1h 1m".
Proof.
  split; [| split; [| split]].
  - intros seconds H. unfold AdvancedProgressBar.format_time. now rewrite H.
  - intros seconds H1 H2. unfold AdvancedProgressBar.format_time.
    now rewrite H1, H2.
  - intros seconds H1 H2. unfold AdvancedProgressBar.format_time.
    now rewrite H1, H2.
  - repeat split; vm_compute; reflexivity.
Qed.

(** The three tiers at 59.5, 61.25 and 7322 seconds. *)
Lemma elapsed_format_tiers_witness :
  AdvancedProgressBar.format_time (Float 59.5) = Ok "59.5s" /\
  AdvancedProgressBar.format_time (Float 61.25) = Ok "1m 1s" /\
  AdvancedProgressBar.format_time (Float 7322) = Ok "2h 2m".
Proof.
  destruct elapsed_format_tiers as (T1 & T2 & T3 & _).
  split; [| split].
  - rewrite (T1 (Float 59.5) eq_refl). vm_compute. reflexivity.
  - rewrite (T2 (Float 61.25) eq_refl eq_refl). vm_compute. reflexivity.
  - rewrite (T3 (Float 7322) eq_refl eq_refl). vm_compute. reflexivity.
Defined.

(** * Further properties of the code *)

(** ** The ETA text (lines 43-49 of [update]) *)

Lemma float_of_int_60 : float_of_int 60 = Ok 60%float.
Proof. vm_compute. reflexivity. Qed.

Lemma float_of_int_3600 : float_of_int 3600 = Ok 3600%float.
Proof. vm_compute. reflexivity. Qed.

(** X1: whatever float the estimate is, also NaN or an infinity, the ETA
    text is produced without an exception: below 60 it is the estimate with
    one decimal and [s], below 3600 the estimate divided by 60 with [m],
    and in every other case, NaN included, the estimate divided by 3600
    with [h]. *)
Theorem format_eta_float (x : float) :
  exists s, AdvancedProgressBar.format_eta (Float x) = Ok s /\
    (if ltb (Float x) (Int 60) then s = fixed false 1 x ++ "s"
     else if ltb (Float x) (Int 3600)
          then s = fixed false 1 (PrimFloat.div x 60) ++ "m"
          else s = fixed false 1 (PrimFloat.div x 3600) ++ "h").
Proof.
  unfold AdvancedProgressBar.format_eta.
  destruct (ltb (Float x) (Int 60)).
  - eexists. split; reflexivity.
  - destruct (ltb (Float x) (Int 3600)).
    + unfold truediv, truediv_float. rewrite float_of_int_60.
      eexists. split; reflexivity.
    + unfold truediv, truediv_float. rewrite float_of_int_3600.
      eexists. split; reflexivity.
Qed.

(** The int 0 that [update] uses when no time has elapsed is printed like
    the float 0.0, and a NaN estimate is printed in hours. *)
Lemma format_eta_edges :
  AdvancedProgressBar.format_eta (Int 0) = Ok "0.0s" /\
  AdvancedProgressBar.format_eta (Float nan) = Ok "nanh" /\
  AdvancedProgressBar.format_eta (Float infinity) = Ok "infh" /\
  AdvancedProgressBar.format_eta (Float 59.96) = Ok "60.0s" /\
  AdvancedProgressBar.format_eta (Float 3599) = Ok "60.0m".
Proof. repeat split; vm_compute; reflexivity. Qed.

(** ** [format_time(nanoseconds)] (lines 160-182) *)

Lemma two_63_below_bound : 2 ^ 63 < overflow_bound.
Proof. reflexivity. Qed.

Lemma float_of_int_in_range (n : Z) :
  Z.abs n < 2 ^ 63 -> float_of_int n = Ok (SF2Prim (binary_normalize prec emax n 0 false)).
Proof.
  intro H. unfold float_of_int. pose proof two_63_below_bound.
  replace (Z.abs n <? overflow_bound) with true; [reflexivity |].
  symmetry. apply Z.ltb_lt. lia.
Qed.

Lemma int_truediv_in_range (n d : Z) :
  Z.abs n < 2 ^ 63 -> d <> 0 ->
  int_truediv n d = Ok (SF2Prim (SFdiv prec emax (Z2SF n) (Z2SF d))).
Proof.
  intros Hn Hd. unfold int_truediv. pose proof two_63_below_bound.
  replace (d =? 0) with false by (symmetry; now apply Z.eqb_neq).
  replace (Z.abs n <? overflow_bound * Z.abs d) with true; [reflexivity |].
  symmetry. apply Z.ltb_lt. nia.
Qed.

(** Dividing by a non-zero int constant within range gives a float. *)
Lemma truediv_const (a : num) (d : Z) :
  (forall n, a = Int n -> Z.abs n < 2 ^ 63) -> d <> 0 -> Z.abs d < 2 ^ 63 ->
  exists q, truediv a (Int d) = Ok (Float q).
Proof.
  intros Ha Hd Hr. unfold truediv, truediv_float. destruct a as [n | x].
  - rewrite (int_truediv_in_range n d (Ha n eq_refl) Hd). eexists. reflexivity.
  - rewrite (float_of_int_in_range d Hr). cbn [bind ret result_Monad].
    replace (d =? 0) with false by (symmetry; now apply Z.eqb_neq).
    eexists. reflexivity.
Qed.

Lemma format_f_in_range (p : nat) (a : num) :
  (forall n, a = Int n -> Z.abs n < 2 ^ 63) -> exists s, format_f p a = Ok s.
Proof.
  intro Ha. unfold format_f, to_float. destruct a as [n | x].
  - rewrite (float_of_int_in_range n (Ha n eq_refl)). eexists. reflexivity.
  - eexists. reflexivity.
Qed.

Lemma float_divmod_nonzero (vx wx : float) :
  PrimFloat.eqb wx 0 = false -> exists q r, float_divmod vx wx = Ok (q, r).
Proof.
  intro H. unfold float_divmod. rewrite H.
  destruct (PrimFloat.eqb (fmod vx wx) 0);
    [| destruct (negb (Bool.eqb (PrimFloat.ltb wx 0) (PrimFloat.ltb (fmod vx wx) 0)))];
    do 2 eexists; reflexivity.
Qed.

(** [divmod] of a float by the int 60 is a pair of floats. *)
Lemma divmod_float_60 (x : float) :
  exists q r, divmod (Float x) (Int 60) = Ok (Float q, Float r).
Proof.
  unfold divmod, to_float. rewrite float_of_int_60. cbn [bind ret result_Monad].
  destruct (float_divmod_nonzero x 60 eq_refl) as (q & r & E). rewrite E.
  do 2 eexists. reflexivity.
Qed.

Lemma float_not_int (x : float) : forall n, Float x = Int n -> Z.abs n < 2 ^ 63.
Proof. intros n H. discriminate H. Qed.

(** X2: [format_time] returns a text for every float, NaN and the
    infinities included, and for every int that fits a signed 64-bit
    counter: none of its divisions and conversions raises. *)
Theorem format_time_returns (nanoseconds : num) :
  (forall n, nanoseconds = Int n -> Z.abs n < 2 ^ 63) ->
  exists s, format_time nanoseconds = Ok s.
Proof.
  intro Hr. unfold format_time.
  destruct (truediv_const nanoseconds 1000000000 Hr) as [sec E];
    [discriminate | reflexivity |].
  rewrite E. cbn [bind ret result_Monad].
  destruct (ltb (Float sec) (Float 1e-9)).
  { destruct (format_f_in_range 0 nanoseconds Hr) as [s Es]. rewrite Es.
    eexists. reflexivity. }
  destruct (ltb (Float sec) (Float 1e-6)).
  { destruct (truediv_const nanoseconds 1000 Hr) as [q Eq];
      [discriminate | reflexivity |].
    rewrite Eq. eexists. reflexivity. }
  destruct (ltb (Float sec) (Float 1e-3)).
  { destruct (truediv_const nanoseconds 1000000 Hr) as [q Eq];
      [discriminate | reflexivity |].
    rewrite Eq. eexists. reflexivity. }
  destruct (ltb (Float sec) (Int 1)); [eexists; reflexivity |].
  destruct (ltb (Float sec) (Int 60)); [eexists; reflexivity |].
  destruct (divmod_float_60 sec) as (m & s & Em). rewrite Em.
  cbn [bind ret result_Monad].
  destruct (ltb (Float m) (Int 60)); [eexists; reflexivity |].
  destruct (divmod_float_60 m) as (h & m' & Eh). rewrite Eh.
  eexists. reflexivity.
Qed.

(** One and a half hours, in nanoseconds. *)
Lemma format_time_returns_witness :
  exists s, format_time (Int 5400000000000) = Ok s.
Proof. apply (format_time_returns (Int 5400000000000)). intros n [= <-]. reflexivity. Defined.

(** A check that holds on every int of a range, by running it. *)
Lemma forallb_range (P : Z -> bool) (lo : Z) (len : nat) :
  forallb P (map (fun k => lo + Z.of_nat k) (seq 0 len)) = true ->
  forall z, lo <= z < lo + Z.of_nat len -> P z = true.
Proof.
  intros H z Hz. rewrite forallb_forall in H. apply H.
  apply in_map_iff. exists (Z.to_nat (z - lo)). split; [lia |].
  apply in_seq. lia.
Qed.

Definition returns_text (r : result string) (s : string) : bool :=
  match r with
  | Ok s' => String.eqb s' s
  | Raise _ => false
  end.

Lemma returns_text_spec (r : result string) (s : string) :
  returns_text r s = true -> r = Ok s.
Proof.
  destruct r as [s' |]; cbn; [| discriminate].
  intro H. apply String.eqb_eq in H. now subst.
Qed.

(** X3: the seconds of the minutes tier are rounded on their own, so that
    half a second before a full minute the text shows 60 seconds: for every
    m from 1 to 59, m minutes and 59.5 seconds are printed as "<m>m 60s". *)
Theorem format_time_sixty_seconds (m : Z) :
  1 <= m <= 59 ->
  format_time (Int ((60 * m + 59) * 1000000000 + 500000000)) = Ok (digits m ++ "m 60s").
Proof.
  intro Hm. apply returns_text_spec.
  apply (forallb_range
           (fun m => returns_text
                       (format_time (Int ((60 * m + 59) * 1000000000 + 500000000)))
                       (digits m ++ "m 60s")) 1 59);
    [vm_compute; reflexivity | lia].
Qed.

Lemma format_time_sixty_seconds_witness :
  format_time (Int 119500000000) = Ok "1m 60s".
Proof. apply (format_time_sixty_seconds 1). lia. Defined.

(** X4: a whole number of nanoseconds from 1 to 999 is not printed in ns
    but as a fraction of a microsecond with two decimals, 1 ns being
    "0.00 µs"; the ns text is that of a count of 0. *)
Theorem format_time_below_microsecond (n : Z) :
  1 <= n <= 999 ->
  exists q, truediv_float (Int n) (Int 1000) = Ok q /\
            format_time (Int n) = Ok (fixed false 2 q ++ " µs").
Proof.
  intro Hn.
  pose (P := fun n => match truediv_float (Int n) (Int 1000) with
                      | Ok q => returns_text (format_time (Int n))
                                             (fixed false 2 q ++ " µs")
                      | Raise _ => false
                      end).
  assert (H : P n = true).
  { apply (forallb_range P 1 999); [vm_compute; reflexivity | lia]. }
  unfold P in H. destruct (truediv_float (Int n) (Int 1000)) as [q |];
    [| discriminate H].
  exists q. split; [reflexivity | now apply returns_text_spec].
Qed.

Lemma format_time_below_microsecond_witness :
  format_time (Int 1) = Ok "0.00 µs" /\ format_time (Int 0) = Ok "0 ns".
Proof.
  split; [| vm_compute; reflexivity].
  destruct (format_time_below_microsecond 1 ltac:(lia)) as (q & Eq & E).
  rewrite E. vm_compute in Eq. injection Eq as <-. vm_compute. reflexivity.
Defined.

(** ** What [update] leaves alone (lines 18-65) *)

Section UpdateFrame.

Import AdvancedProgressBar.

(** [frame s s']: from [s] to [s'] the settings of the bar and its
    [current] are the same, the output has only grown and no reading was
    given back. *)
Definition frame (s s' : t * World) : Prop :=
  total (fst s') = total (fst s) /\ desc (fst s') = desc (fst s) /\
  bar_length (fst s') = bar_length (fst s) /\
  start_time (fst s') = start_time (fst s) /\
  current (fst s') = current (fst s) /\
  (exists out, stdout (snd s') = (stdout (snd s) ++ out)%list) /\
  (readings (snd s) <= readings (snd s'))%nat.

Lemma frame_refl (s : t * World) : frame s s.
Proof.
  unfold frame. repeat split; try reflexivity.
  exists []. now rewrite app_nil_r.
Qed.

Lemma frame_trans (s1 s2 s3 : t * World) : frame s1 s2 -> frame s2 s3 -> frame s1 s3.
Proof.
  unfold frame. intros (A1 & A2 & A3 & A4 & A5 & [o1 A6] & A7)
                       (B1 & B2 & B3 & B4 & B5 & [o2 B6] & B7).
  repeat split; try congruence; try lia.
  exists (o1 ++ o2)%list. now rewrite B6, A6, app_assoc.
Qed.

Definition framed {A : Type} (c : Method A) : Prop :=
  forall s, frame s (snd (c s)).

Lemma framed_bind {A B : Type} (c : Method A) (k : A -> Method B) :
  framed c -> (forall a, framed (k a)) -> framed (bind c k).
Proof.
  intros Hc Hk s. cbn. specialize (Hc s).
  destruct (c s) as [[a | e] s1]; cbn in *; [| exact Hc].
  eapply frame_trans; [exact Hc | apply Hk].
Qed.

Lemma framed_lift {A : Type} (r : result A) : framed (lift r).
Proof. intro s. apply frame_refl. Qed.

Lemma framed_this : framed this.
Proof. intro s. apply frame_refl. Qed.

Lemma framed_read {A : Type} (f : nat -> A) : framed (io (read f)).
Proof.
  intros [self w]. unfold frame. cbn. repeat split; try lia.
  exists []. now rewrite app_nil_r.
Qed.

Lemma framed_write (text : string) : framed (io (write text)).
Proof.
  intros [self w]. unfold frame. cbn. repeat split; try lia.
  now exists [text].
Qed.

Lemma framed_set_iteration_times (v : list float) :
  framed (assign (set_iteration_times v)).
Proof. intros [self w]. unfold frame. cbn. repeat split; try lia.
  exists []. now rewrite app_nil_r.
Qed.

(** X5: a call of [update], whether it returns or raises, leaves [total],
    [desc], [bar_length] and [start_time] as they were and has set
    [current] to its argument; what was written before is still there, in
    front of what the call wrote. *)
Theorem update_frame (env : Env) (c : Z) (self : t) (w : World) :
  let s' := snd (update env c (self, w)) in
  total (fst s') = total self /\ desc (fst s') = desc self /\
  bar_length (fst s') = bar_length self /\ start_time (fst s') = start_time self /\
  current (fst s') = c /\
  exists out, stdout (snd s') = (stdout w ++ out)%list.
Proof.
  unfold update.
  match goal with
  | |- context [bind (assign (set_current c)) ?k] =>
      assert (H : framed (k tt));
      [| specialize (H (set_current c self, w));
         change (snd (bind (assign (set_current c)) k (self, w)))
           with (snd (k tt (set_current c self, w))) ]
  end.
  { repeat first
      [ apply framed_bind; [first [apply framed_this | apply framed_lift
                                  | apply framed_read | apply framed_write] |]
      | intros [[? ?] ?] | intros [? ?] | intro
      | apply framed_set_iteration_times ]. }
  destruct H as (H1 & H2 & H3 & H4 & H5 & H6 & _). cbn in H1, H2, H3, H4, H5, H6.
  cbv zeta. repeat split; assumption.
Qed.

End UpdateFrame.

(** ** [perform_cycles] on an empty run (lines 100-158) *)

(** X6: with [num_cycles = 0] the loop body never runs and the closing
    [finish()] calls [update(0)] on a bar whose total is 0: whatever the
    clock says, [perform_cycles(0)] raises ZeroDivisionError, after the
    headers and before any progress line is written. *)
Theorem perform_cycles_zero (env : Env) (w : World) :
  fst (perform_cycles env 0 w) = Raise (ZeroDivisionError "division by zero") /\
  exists headers,
    stdout (snd (perform_cycles env 0 w)) = (stdout w ++ headers)%list /\
    List.length headers = 10%nat /\
    (readings (snd (perform_cycles env 0 w)) = readings w + 5)%nat.
Proof.
  split; [vm_compute; reflexivity |].
  eexists. split; [| split].
  - cbv - [app]. repeat rewrite <- app_assoc. cbn [app]. reflexivity.
  - reflexivity.
  - cbv. now rewrite Nat.add_comm.
Qed.

(** ** The confirmation of a large run (lines 296-306 of [main]) *)

(** X7: up to one million cycles nothing is asked, read or printed.  Above
    (and within a 64-bit count) one answer is read, the run goes ahead
    exactly when that answer, lower-cased, is [y] or [yes], and a refusal is
    followed by the text "Operation cancelled." as the last thing printed. *)
Theorem large_number_warning_spec (env : Env) (num_cycles : Z) (w : World) :
  (num_cycles <= 1000000 ->
   large_number_warning env num_cycles w = (Ok true, w)) /\
  (1000000 < num_cycles < 2 ^ 63 ->
   let answer := lower (input env "Continue? (y/N): " (readings w)) in
   let accepted := String.eqb answer "y" || String.eqb answer "yes" in
   let '(r, w') := large_number_warning env num_cycles w in
   r = Ok accepted /\ readings w' = S (readings w) /\
   (accepted = false ->
    exists out, stdout w' = (stdout w ++ out ++ [("Operation cancelled." ++ LF)%string])%list)).
Proof.
  split; intro H; unfold large_number_warning.
  - replace (num_cycles >? 1000000) with false; [reflexivity |].
    symmetry. rewrite Z.gtb_ltb. apply Z.ltb_ge. lia.
  - replace (num_cycles >? 1000000) with true
      by (symmetry; rewrite Z.gtb_ltb; apply Z.ltb_lt; lia).
    cbv zeta. unfold print_section, print, write, read, lift.
    cbn [bind ret M_Monad readings stdout].
    rewrite (int_truediv_in_range num_cycles 1000000) by (try discriminate; lia).
    match goal with |- context [gtb ?a ?b] => destruct (gtb a b) end;
      cbn [bind ret M_Monad readings stdout];
      match goal with |- context [(String.eqb ?a "y" || String.eqb ?a "yes")%bool] =>
        destruct (String.eqb a "y" || String.eqb a "yes")%bool end;
      cbn [bind ret M_Monad readings stdout];
      (split; [reflexivity | split; [reflexivity |]]);
      intro E; try discriminate E;
      repeat rewrite <- app_assoc; cbn [app];
      first [ refine (ex_intro _ [_; _; _; _] eq_refl)
            | refine (ex_intro _ [_; _; _] eq_refl) ].
Qed.

(** Ten cycles need no confirmation; for two million, [YES] is accepted
    whatever its case. *)
Lemma large_number_warning_spec_witness :
  (forall env w, large_number_warning env 10 w = (Ok true, w)) /\
  (forall env w, input env "Continue? (y/N): " (readings w) = "YES" ->
                 fst (large_number_warning env 2000000 w) = Ok true).
Proof.
  split.
  - intros env w. apply (proj1 (large_number_warning_spec env 10 w)). lia.
  - intros env w Hin.
    pose proof (proj2 (large_number_warning_spec env 2000000 w)) as H.
    assert (Hr : 1000000 < 2000000 < 2 ^ 63) by (split; reflexivity).
    specialize (H Hr). cbv zeta in H. rewrite Hin in H.
    destruct (large_number_warning env 2000000 w) as [r w'].
    destruct H as [H _]. exact H.
Defined.

(** ** Rounding stays in the format

    What the arithmetic of [update] needs from binary64: a rounded result
    is a number of the format, and it is finite when the exact result is
    far from the largest float. *)

Lemma Zdigits2_log2 (m : Z) : 0 < m -> Zdigits2 m = Z.log2 m + 1.
Proof.
  destruct m as [| p | p]; try lia. intros _. cbn [Zdigits2].
  induction p as [p IH | p IH |]; cbn [digits2_pos]; try reflexivity.
  - rewrite Pos2Z.inj_succ, IH. change (Zpos p~1) with (2 * Zpos p + 1).
    rewrite Z.log2_succ_double by lia. lia.
  - rewrite Pos2Z.inj_succ, IH. change (Zpos p~0) with (2 * Zpos p).
    rewrite Z.log2_double by lia. lia.
Qed.

Lemma Zdigits2_pos (m : Z) : 0 < m -> 1 <= Zdigits2 m.
Proof. intro H. rewrite Zdigits2_log2 by exact H. pose proof (Z.log2_nonneg m). lia. Qed.

(** Dropping [n] low bits drops [n] digits, or leaves nothing. *)
Lemma Zdigits2_shiftr (m n : Z) :
  0 < m -> 0 <= n ->
  (Z.shiftr m n = 0 /\ Zdigits2 m <= n) \/
  (0 < Z.shiftr m n /\ Zdigits2 (Z.shiftr m n) = Zdigits2 m - n).
Proof.
  intros Hm Hn. pose proof (proj2 (Z.shiftr_nonneg m n) (Z.lt_le_incl _ _ Hm)) as H0.
  destruct (Z.eq_dec (Z.shiftr m n) 0) as [E | E].
  - left. split; [exact E |]. apply Z.shiftr_eq_0_iff in E.
    rewrite Zdigits2_log2 by exact Hm. lia.
  - right. assert (Hp : 0 < Z.shiftr m n) by lia. split; [exact Hp |].
    rewrite (Zdigits2_log2 _ Hp), (Zdigits2_log2 _ Hm), Z.log2_shiftr by exact Hm.
    assert (~ Z.log2 m < n).
    { intro Hlt. apply E. apply Z.shiftr_eq_0_iff. right. split; assumption. }
    lia.
Qed.

(** Adding one adds a digit only on reaching a power of two. *)
Lemma Zdigits2_succ (m : Z) :
  0 <= m ->
  (0 < m /\ Zdigits2 (m + 1) = Zdigits2 m) \/
  (Zdigits2 (m + 1) = Zdigits2 m + 1 /\ m + 1 = 2 ^ Zdigits2 m).
Proof.
  intro Hm. destruct (Z.eq_dec m 0) as [-> | Hn]; [right; split; reflexivity |].
  assert (Hp : 0 < m) by lia.
  rewrite (Zdigits2_log2 (m + 1)), (Zdigits2_log2 m) by lia.
  change (m + 1) with (Z.succ m) at 1 2.
  destruct (Z.log2_succ_or m) as [E | E]; [right | left; split; [exact Hp | lia]].
  split; [lia |]. destruct (Z.log2_eq_succ_is_pow2 m E) as [b Eb].
  assert (Hb : 0 <= b).
  { destruct (Z.lt_ge_cases b 0) as [Hlt | Hge]; [| exact Hge].
    rewrite (Z.pow_neg_r 2 b Hlt) in Eb. lia. }
  rewrite Eb, Z.log2_pow2 in E by exact Hb.
  replace (Z.log2 m + 1) with b by lia. lia.
Qed.

Lemma shr_1_m (mrs : shr_record) :
  0 <= shr_m mrs -> shr_m (shr_1 mrs) = Z.div2 (shr_m mrs).
Proof.
  destruct mrs as [m r s]. cbn [shr_m]. intro H.
  destruct m as [| [p | p |] | p]; try reflexivity; lia.
Qed.

Lemma iter_pos_shr_1 (p : positive) (mrs : shr_record) :
  0 <= shr_m mrs -> shr_m (iter_pos shr_1 p mrs) = Z.shiftr (shr_m mrs) (Zpos p).
Proof.
  revert mrs. induction p as [p IH | p IH |]; intros mrs H; cbn [iter_pos].
  - assert (H1 : 0 <= shr_m (shr_1 mrs)).
    { rewrite shr_1_m, Z.div2_spec by exact H. now apply Z.shiftr_nonneg. }
    assert (H2 : 0 <= shr_m (iter_pos shr_1 p (shr_1 mrs))).
    { rewrite IH by exact H1. now apply Z.shiftr_nonneg. }
    rewrite IH, IH, shr_1_m, Z.div2_spec, !Z.shiftr_shiftr by (assumption || lia).
    f_equal. lia.
  - assert (H2 : 0 <= shr_m (iter_pos shr_1 p mrs)).
    { rewrite IH by exact H. now apply Z.shiftr_nonneg. }
    rewrite IH, IH, Z.shiftr_shiftr by (assumption || lia). f_equal. lia.
  - rewrite shr_1_m, Z.div2_spec by exact H. reflexivity.
Qed.

Lemma shr_m_of_loc (m : Z) (l : location) : shr_m (shr_record_of_loc m l) = m.
Proof. destruct l as [| []]; reflexivity. Qed.

(** [shr_fexp] shifts the mantissa down to the exponent of the format. *)
Lemma shr_fexp_spec (m e : Z) (l : location) :
  0 <= m -> e <= fexp prec emax (Zdigits2 m + e) ->
  shr_m (fst (shr_fexp prec emax m e l))
    = Z.shiftr m (fexp prec emax (Zdigits2 m + e) - e) /\
  snd (shr_fexp prec emax m e l) = fexp prec emax (Zdigits2 m + e).
Proof.
  intros Hm He. unfold shr_fexp, shr.
  destruct (fexp prec emax (Zdigits2 m + e) - e) as [| p | p] eqn:E; cbn [fst snd].
  - rewrite shr_m_of_loc, Z.shiftr_0_r. split; [reflexivity | lia].
  - rewrite iter_pos_shr_1, shr_m_of_loc by (now rewrite shr_m_of_loc).
    split; [reflexivity | lia].
  - lia.
Qed.

Lemma round_nearest_even_cases (m : Z) (l : location) :
  round_nearest_even m l = m \/ round_nearest_even m l = m + 1.
Proof.
  destruct l as [| []]; cbn; try (left; reflexivity); try (right; reflexivity).
  destruct (Z.even m); [left | right]; reflexivity.
Qed.

(** [in_format B x]: [x] is zero, or finite and below [2^B] in magnitude. *)
Definition in_format (B : Z) (x : spec_float) : Prop :=
  match x with
  | S754_zero _ => True
  | S754_finite _ m e => Zpos (digits2_pos m) + e <= B
  | _ => False
  end.

Lemma fexp_eq (e : Z) : fexp prec emax e = Z.max (e - 53) (-1074).
Proof. reflexivity. Qed.

Lemma binary_round_aux_valid (sx : bool) (mx ex : Z) (lx : location) :
  0 < mx -> ex <= fexp prec emax (Zdigits2 mx + ex) ->
  valid_binary (binary_round_aux prec emax sx mx ex lx) = true /\
  forall B, Zdigits2 mx + ex <= B -> -1074 <= B < 1024 ->
            in_format (B + 1) (binary_round_aux prec emax sx mx ex lx).
Proof.
  intros Hm He. unfold binary_round_aux.
  destruct (shr_fexp_spec mx ex lx (Z.lt_le_incl _ _ Hm) He) as [E1 E2].
  destruct (shr_fexp prec emax mx ex lx) as [mrs' e']. cbn [fst snd] in E1, E2.
  remember (shr_m mrs') as m1 eqn:Em1.
  remember (round_nearest_even m1 (loc_of_shr_record mrs')) as m2 eqn:Em2.
  rewrite fexp_eq in He, E1, E2.
  assert (Hm1 : 0 <= m1) by (rewrite E1; apply Z.shiftr_nonneg; lia).
  assert (Hm2 : 0 <= m2 /\ (m2 = m1 \/ m2 = m1 + 1)).
  { destruct (round_nearest_even_cases m1 (loc_of_shr_record mrs')) as [E | E];
      rewrite <- Em2 in E; lia. }
  clear Em1 Em2.
  destruct Hm2 as [Hm2 Hc].
  pose proof (Zdigits2_pos mx Hm) as Hd.
  assert (Hs : (m1 = 0 /\ Zdigits2 mx <= e' - ex) \/
               (0 < m1 /\ Zdigits2 m1 = Zdigits2 mx - (e' - ex))).
  { rewrite E1, E2. apply Zdigits2_shiftr; lia. }
  assert (Hd2 : (m2 = 0 /\ e' = -1074) \/
                (0 < m2 /\ Zdigits2 m2 + e' <= Z.max (Zdigits2 mx + ex) (-1074) + 1 /\
                 (Zdigits2 m2 <= 53 \/ (m2 = 2 ^ 53 /\ Zdigits2 m2 = 54)) /\
                 (Zdigits2 m2 < 53 -> e' = -1074))).
  { destruct Hs as [[Z1 S1] | [P1 S1]].
    - destruct Hc as [-> | ->]; [left; lia | right]. rewrite Z1.
      change (Zdigits2 (0 + 1)) with 1. lia.
    - right. destruct Hc as [-> | ->]; [lia |].
      destruct (Zdigits2_succ m1 Hm1) as [[_ E] | [E P]]; rewrite E; [lia |].
      split; [lia |]. split; [lia |]. split; [| lia].
      destruct (Z.eq_dec (Zdigits2 m1) 53) as [E53 | N53]; [right | left; lia].
      rewrite P, E53. split; [reflexivity | lia]. }
  assert (He2 : e' <= fexp prec emax (Zdigits2 m2 + e')).
  { rewrite fexp_eq. destruct Hd2 as [[-> ->] | (P2 & B2 & C2 & D2)]; [cbn; lia | lia]. }
  destruct (shr_fexp_spec m2 e' loc_Exact Hm2 He2) as [F1 F2].
  destruct (shr_fexp prec emax m2 e' loc_Exact) as [mrs'' e'']. cbn [fst snd] in F1, F2.
  rewrite fexp_eq in F1, F2.
  destruct Hd2 as [[Z2 Ee] | (P2 & B2 & C2 & D2)].
  { rewrite F1, Z2, Z.shiftr_0_l. split; [reflexivity | intros; exact I]. }
  assert (Hm3 : 0 < shr_m mrs'' /\ Zdigits2 (shr_m mrs'') + e'' = Zdigits2 m2 + e' /\
                e'' = Z.max (Zdigits2 (shr_m mrs'') + e'' - 53) (-1074)).
  { destruct C2 as [C2 | [C2 C3]].
    - replace (Z.max (Zdigits2 m2 + e' - 53) (-1074) - e') with 0 in F1 by lia.
      rewrite Z.shiftr_0_r in F1. rewrite F1. lia.
    - replace (Z.max (Zdigits2 m2 + e' - 53) (-1074) - e') with 1 in F1 by lia.
      rewrite C2 in F1. change (Z.shiftr (2 ^ 53) 1) with (2 ^ 52) in F1.
      rewrite F1. change (Zdigits2 (2 ^ 52)) with 53. lia. }
  destruct Hm3 as (P3 & S3 & C3).
  destruct (shr_m mrs'') as [| m3 | m3]; try lia.
  cbn [Zdigits2] in S3, C3.
  destruct (Z.leb_spec e'' (emax - prec)) as [L | L].
  - split.
    + cbn [SpecFloat.valid_binary]. unfold bounded, canonical_mantissa.
      rewrite fexp_eq. apply andb_true_iff. split; [apply Z.eqb_eq | apply Z.leb_le]; lia.
    + intros B HB1 HB2. cbn [in_format]. lia.
  - split; [reflexivity |]. intros B HB1 HB2. exfalso.
    change (emax - prec) with 971 in L. lia.
Qed.

Lemma digits2_pos_iter_xO (m d : positive) :
  Zpos (digits2_pos (Pos.iter xO m d)) = Zpos (digits2_pos m) + Zpos d.
Proof.
  induction d as [| d IH] using Pos.peano_ind.
  - cbn [Pos.iter digits2_pos]. lia.
  - rewrite Pos.iter_succ. cbn [digits2_pos]. lia.
Qed.

Lemma binary_round_valid (sx : bool) (mx : positive) (ex : Z) :
  valid_binary (binary_round prec emax sx mx ex) = true /\
  forall B, Zpos (digits2_pos mx) + ex <= B -> -1074 <= B < 1024 ->
            in_format (B + 1) (binary_round prec emax sx mx ex).
Proof.
  unfold binary_round, shl_align.
  pose proof (fexp_eq (Zpos (digits2_pos mx) + ex)) as Ef.
  destruct (fexp prec emax (Zpos (digits2_pos mx) + ex) - ex) as [| d | d] eqn:E.
  - apply binary_round_aux_valid; [reflexivity |]. cbn [Zdigits2]. lia.
  - apply binary_round_aux_valid; [reflexivity |]. cbn [Zdigits2]. lia.
  - pose proof (digits2_pos_iter_xO mx d) as Hd.
    destruct (binary_round_aux_valid sx (Zpos (Pos.iter xO mx d))
                (fexp prec emax (Zpos (digits2_pos mx) + ex)) loc_Exact) as [V F].
    + reflexivity.
    + cbn [Zdigits2]. rewrite Hd.
      replace (Zpos (digits2_pos mx) + Zpos d + fexp prec emax (Zpos (digits2_pos mx) + ex))
        with (Zpos (digits2_pos mx) + ex) by lia.
      lia.
    + split; [exact V |]. intros B HB1 HB2. apply F; [| exact HB2].
      cbn [Zdigits2]. lia.
Qed.

Lemma Zdigits2_below (m k : Z) : 0 < m -> m < 2 ^ k -> Zdigits2 m <= k.
Proof.
  intros Hm Hk. rewrite Zdigits2_log2 by exact Hm.
  apply Z.log2_lt_pow2 in Hk; [lia | exact Hm].
Qed.

Lemma Zdigits2_above (m k : Z) : 0 < m -> 2 ^ k <= m -> k + 1 <= Zdigits2 m.
Proof.
  intros Hm Hk. rewrite Zdigits2_log2 by exact Hm.
  apply Z.log2_le_pow2 in Hk; [lia | exact Hm].
Qed.

Lemma Zdigits2_spec (m : Z) :
  0 < m -> 2 ^ (Zdigits2 m - 1) <= m < 2 ^ Zdigits2 m.
Proof.
  intro Hm. rewrite Zdigits2_log2 by exact Hm.
  replace (Z.log2 m + 1 - 1) with (Z.log2 m) by lia.
  apply (Z.log2_spec m Hm).
Qed.

(** [float(n)] of a 64-bit int is a finite float below [2^64]. *)
Lemma float_of_int_finite (n : Z) :
  Z.abs n < 2 ^ 63 ->
  exists x, float_of_int n = Ok x /\ in_format 64 (Prim2SF x).
Proof.
  intro Hn. rewrite (float_of_int_in_range n Hn). eexists. split; [reflexivity |].
  destruct n as [| p | p]; [vm_compute; exact I | |]; cbn [binary_normalize].
  - destruct (binary_round_valid false p 0) as [V F]. rewrite Prim2SF_SF2Prim by exact V.
    apply (F 63); [| lia].
    pose proof (Zdigits2_below (Zpos p) 63 eq_refl Hn) as H. cbn [Zdigits2] in H. lia.
  - destruct (binary_round_valid true p 0) as [V F]. rewrite Prim2SF_SF2Prim by exact V.
    apply (F 63); [| lia].
    pose proof (Zdigits2_below (Zpos p) 63 eq_refl Hn) as H. cbn [Zdigits2] in H. lia.
Qed.

(** The quotient of two mantissas, as [SFdiv] prepares it for rounding. *)
Lemma SFdiv_core_binary_int (m1 m2 : positive) :
  Zpos m1 < 2 ^ 63 -> Zpos m2 < 2 ^ 63 ->
  exists q e l,
    SFdiv_core_binary prec emax (Zpos m1) 0 (Zpos m2) 0 = (q, e, l) /\
    0 < q /\ e <= fexp prec emax (Zdigits2 q + e) /\ Zdigits2 q + e <= 63.
Proof.
  intros H1 H2. unfold SFdiv_core_binary.
  pose proof (Zdigits2_pos (Zpos m1) eq_refl) as P1.
  pose proof (Zdigits2_pos (Zpos m2) eq_refl) as P2.
  pose proof (Zdigits2_below (Zpos m1) 63 eq_refl H1) as B1.
  pose proof (Zdigits2_below (Zpos m2) 63 eq_refl H2) as B2.
  pose proof (Zdigits2_spec (Zpos m1) eq_refl) as S1.
  pose proof (Zdigits2_spec (Zpos m2) eq_refl) as S2.
  set (d1 := Zdigits2 (Zpos m1)) in *. set (d2 := Zdigits2 (Zpos m2)) in *.
  rewrite fexp_eq.
  replace (Z.min (Z.max (d1 + 0 - (d2 + 0) - 53) (-1074)) (0 - 0))
    with (Z.min (d1 - d2 - 53) 0) by lia.
  set (e := Z.min (d1 - d2 - 53) 0).
  replace (0 - 0 - e) with (- e) by lia.
  assert (Hs : 0 <= - e) by (unfold e; lia).
  assert (Em : match - e with
               | 0 => Zpos m1 | Zpos _ => Z.shiftl (Zpos m1) (- e) | Zneg _ => 0
               end = Zpos m1 * 2 ^ (- e)).
  { destruct (- e) as [| p | p] eqn:Es; try lia.
    rewrite Z.shiftl_mul_pow2 by lia. reflexivity. }
  rewrite Em. clear Em.
  pose proof (Z_div_mod (Zpos m1 * 2 ^ (- e)) (Zpos m2) eq_refl) as Hdm.
  destruct (Z.div_eucl (Zpos m1 * 2 ^ (- e)) (Zpos m2)) as [q r].
  destruct Hdm as [Eq Hr].
  exists q, e, (new_location (Zpos m2) r). split; [reflexivity |].
  set (k := d1 - e - 1 - d2).
  assert (Hk : 52 <= k) by (unfold k, e; lia).
  assert (E1 : 2 ^ (d1 - 1) * 2 ^ (- e) = 2 ^ k * (2 * 2 ^ (d2 - 1))).
  { rewrite <- (Z.pow_succ_r 2 (d2 - 1)), <- !Z.pow_add_r by lia. f_equal. unfold k. lia. }
  assert (E2 : 2 ^ d1 * 2 ^ (- e) = 2 ^ (k + 2) * 2 ^ (d2 - 1)).
  { rewrite <- !Z.pow_add_r by lia. f_equal. unfold k. lia. }
  assert (E3 : 2 ^ d2 = 2 * 2 ^ (d2 - 1)).
  { rewrite <- Z.pow_succ_r by lia. f_equal. lia. }
  pose proof (Z.pow_pos_nonneg 2 (- e) eq_refl Hs) as Ps.
  pose proof (Z.pow_pos_nonneg 2 k eq_refl ltac:(lia)) as Pk.
  pose proof (Z.pow_pos_nonneg 2 (k + 2) eq_refl ltac:(lia)) as Pk2.
  pose proof (Z.pow_pos_nonneg 2 (d2 - 1) eq_refl ltac:(lia)) as Pd2.
  assert (Hlow : 2 ^ k * Zpos m2 <= Zpos m1 * 2 ^ (- e)).
  { apply Z.le_trans with (2 ^ k * 2 ^ d2).
    - apply Z.mul_le_mono_nonneg_l; lia.
    - rewrite E3, <- E1. apply Z.mul_le_mono_nonneg_r; lia. }
  assert (Hup : Zpos m1 * 2 ^ (- e) < 2 ^ (k + 2) * Zpos m2).
  { apply Z.lt_le_trans with (2 ^ d1 * 2 ^ (- e)).
    - apply Z.mul_lt_mono_pos_r; lia.
    - rewrite E2. apply Z.mul_le_mono_nonneg_l; lia. }
  assert (Hq1 : 2 ^ k <= q) by nia.
  assert (Hq2 : q < 2 ^ (k + 2)) by nia.
  assert (Hq : 0 < q) by lia.
  pose proof (Zdigits2_above q k Hq Hq1). pose proof (Zdigits2_below q (k + 2) Hq Hq2).
  split; [exact Hq |]. rewrite fexp_eq. unfold k, e in *. lia.
Qed.

(** An int divided by an int, both of 64 bits, is a finite float. *)
Lemma int_truediv_finite (a b : Z) :
  Z.abs a < 2 ^ 63 -> Z.abs b < 2 ^ 63 -> b <> 0 ->
  exists q, int_truediv a b = Ok q /\ in_format 64 (Prim2SF q).
Proof.
  intros Ha Hb Hn. rewrite (int_truediv_in_range a b Ha Hn).
  eexists. split; [reflexivity |].
  assert (H : forall s (m1 m2 : positive), Zpos m1 < 2 ^ 63 -> Zpos m2 < 2 ^ 63 ->
    let x := let '(mz, ez, lz) := SFdiv_core_binary prec emax (Zpos m1) 0 (Zpos m2) 0 in
             binary_round_aux prec emax s mz ez lz in
    in_format 64 (Prim2SF (SF2Prim x))).
  { intros s m1 m2 H1 H2.
    destruct (SFdiv_core_binary_int m1 m2 H1 H2) as (q & e & l & E & Hq & He & Hd).
    rewrite E. cbv zeta.
    destruct (binary_round_aux_valid s q e l Hq He) as [V F].
    rewrite Prim2SF_SF2Prim by exact V. apply (F 63); [exact Hd | lia]. }
  destruct b as [| p' | p']; [lia | |]; destruct a as [| p | p]; cbn [Z2SF SFdiv];
    try (rewrite Prim2SF_SF2Prim by reflexivity; exact I); apply H; lia.
Qed.

(** [int(x)] of a finite float. *)
Lemma int_of_float_finite (B : Z) (x : float) :
  in_format B (Prim2SF x) -> exists n, int_of_float x = Ok n.
Proof.
  unfold int_of_float. destruct (Prim2SF x); cbn [in_format]; intro H;
    try contradiction; eexists; reflexivity.
Qed.

(** The product of two finite floats that are far from the largest one. *)
Lemma mul_finite (a b : Z) (x y : float) :
  in_format a (Prim2SF x) -> in_format b (Prim2SF y) ->
  -1074 <= a + b < 1024 ->
  in_format (a + b + 1) (Prim2SF (x * y)).
Proof.
  intros Hx Hy Hab. rewrite mul_spec. unfold SF64mul.
  pose proof (Prim2SF_valid x) as Vx. pose proof (Prim2SF_valid y) as Vy.
  destruct (Prim2SF x) as [sx | sx | | sx mx ex], (Prim2SF y) as [sy | sy | | sy my ey];
    cbn [in_format] in Hx, Hy; try contradiction; cbn [SFmul]; try exact I.
  cbn [SpecFloat.valid_binary] in Vx, Vy. unfold bounded, canonical_mantissa in Vx, Vy.
  apply andb_true_iff in Vx, Vy. destruct Vx as [Cx _], Vy as [Cy _].
  apply Z.eqb_eq in Cx, Cy. rewrite fexp_eq in Cx, Cy.
  pose proof (Z.log2_mul_below (Zpos mx) (Zpos my) eq_refl eq_refl) as L1.
  pose proof (Z.log2_mul_above (Zpos mx) (Zpos my)) as L2.
  pose proof (Zdigits2_log2 (Zpos mx) eq_refl) as Dx.
  pose proof (Zdigits2_log2 (Zpos my) eq_refl) as Dy.
  pose proof (Zdigits2_log2 (Zpos (mx * my)) eq_refl) as Dxy.
  rewrite Pos2Z.inj_mul in Dxy at 2. cbn [Zdigits2] in Dx, Dy.
  destruct (binary_round_aux_valid (xorb sx sy) (Zpos (mx * my)) (ex + ey) loc_Exact)
    as [_ F]; [reflexivity | rewrite fexp_eq; lia |].
  apply F; lia.
Qed.

(** ** [update] returns (lines 18-65) *)

Section UpdateReturns.

Import AdvancedProgressBar.

(** A number that is a float, or an int of 64 bits. *)
Definition fits (a : num) : Prop := forall n, a = Int n -> Z.abs n < 2 ^ 63.

Lemma fits_Float (x : float) : fits (Float x).
Proof. intros n H. discriminate H. Qed.

Lemma fits_Int (n : Z) : Z.abs n < 2 ^ 63 -> fits (Int n).
Proof. intros H k [= <-]. exact H. Qed.

Lemma float_of_int_returns (n : Z) :
  Z.abs n < 2 ^ 64 -> exists x, float_of_int n = Ok x.
Proof.
  intro H. unfold float_of_int.
  assert (B : 2 ^ 64 < overflow_bound) by reflexivity.
  replace (Z.abs n <? overflow_bound) with true; [eexists; reflexivity |].
  symmetry. apply Z.ltb_lt. lia.
Qed.

Lemma min_finite (q : float) :
  in_format 64 (Prim2SF q) -> in_format 64 (Prim2SF (min q 1)).
Proof.
  intro H. unfold min. destruct (PrimFloat.ltb 1 q); [| exact H].
  vm_compute. intro E. discriminate E.
Qed.

Lemma render_bar_returns (self : t) (c : Z) :
  total self <> 0 -> Z.abs (total self) < 2 ^ 63 ->
  Z.abs (bar_length self) < 2 ^ 63 -> Z.abs c < 2 ^ 63 ->
  exists progress filled_length bar,
    render_bar self c = Ok (progress, filled_length, bar).
Proof.
  intros Hn Ht Hb Hc. unfold render_bar.
  destruct (int_truediv_finite c (total self) Hc Ht Hn) as (q & Eq & Fq).
  rewrite Eq. cbn [bind ret result_Monad]. unfold mul, arith, to_float.
  destruct (float_of_int_finite (bar_length self) Hb) as (bl & Eb & Fb).
  rewrite Eb. cbn [bind ret result_Monad to_int].
  destruct (int_of_float_finite _ _
              (mul_finite 64 64 bl (min q 1) Fb (min_finite q Fq) ltac:(lia)))
    as [n En].
  rewrite En. do 3 eexists. reflexivity.
Qed.

Lemma speed_and_eta_returns (self : t) (c : Z) (progress elapsed_time : float) :
  Z.abs (total self) < 2 ^ 63 -> Z.abs c < 2 ^ 63 ->
  (List.length (iteration_times self) <= 100)%nat ->
  exists speed eta,
    speed_and_eta self c progress elapsed_time = Ok (speed, eta) /\
    fits speed /\ fits eta.
Proof.
  intros Ht Hc Hl. unfold speed_and_eta.
  destruct (gtb (Float elapsed_time) (Int 0)) eqn:G;
    [| do 2 eexists; split; [reflexivity | split; apply fits_Int; reflexivity]].
  unfold truediv at 1. unfold truediv_float.
  rewrite (float_of_int_in_range c Hc). cbn [bind ret result_Monad].
  unfold float_truediv at 1. rewrite (positive_float_nonzero _ G).
  cbn [bind ret result_Monad].
  destruct (2 <=? Z.of_nat (List.length (iteration_times self))) eqn:L.
  - apply Z.leb_le in L.
    destruct (truediv_const (Float (sum (iteration_times self)))
                (Z.of_nat (List.length (iteration_times self))))
      as [avg Ea]; [apply fits_Float | lia | lia |].
    rewrite Ea.
    cbn [bind ret result_Monad].
    destruct (c >? 0).
    + unfold mul, arith, to_float.
      destruct (float_of_int_returns (total self - c)) as [d Ed]; [lia |].
      rewrite Ed. cbn [bind ret result_Monad].
      do 2 eexists. split; [reflexivity | split; apply fits_Float].
    + cbn [bind ret result_Monad].
      do 2 eexists. split; [reflexivity | split; [apply fits_Float | apply fits_Int; reflexivity]].
  - destruct (gtb (Float progress) (Int 0)) eqn:G2.
    + unfold sub, mul, arith, to_float.
      rewrite (float_of_int_in_range 1) by reflexivity.
      cbn [bind ret result_Monad]. unfold truediv, truediv_float, float_truediv.
      rewrite (positive_float_nonzero _ G2). cbn [bind ret result_Monad].
      do 2 eexists. split; [reflexivity | split; apply fits_Float].
    + cbn [bind ret result_Monad].
      do 2 eexists. split; [reflexivity | split; [apply fits_Float | apply fits_Int; reflexivity]].
Qed.

Lemma format_eta_returns (eta : num) :
  fits eta -> exists s, format_eta eta = Ok s.
Proof.
  intro H. unfold format_eta.
  destruct (format_f_in_range 1 eta H) as [s0 E0].
  destruct (truediv_const eta 60 H) as [q1 E1]; [discriminate | reflexivity |].
  destruct (truediv_const eta 3600 H) as [q2 E2]; [discriminate | reflexivity |].
  rewrite E0, E1, E2. cbn [bind ret result_Monad format_f to_float].
  destruct (ltb eta (Int 60)); [eexists; reflexivity |].
  destruct (ltb eta (Int 3600)); eexists; reflexivity.
Qed.

Lemma format_wf_returns (w p : nat) (a : num) :
  fits a -> exists s, format_wf w p a = Ok s.
Proof.
  intro Ha. unfold format_wf, to_float. destruct a as [n | x].
  - rewrite (float_of_int_in_range n (Ha n eq_refl)). eexists. reflexivity.
  - eexists. reflexivity.
Qed.

Lemma percent_returns (progress : float) :
  exists s, (p <- mul (Float progress) (Int 100) ;; format_wf 6 2 p) = Ok s.
Proof.
  unfold mul, arith, to_float. rewrite (float_of_int_in_range 100) by reflexivity.
  eexists. reflexivity.
Qed.

Lemma divmod_float_3600 (x : float) :
  exists q r, divmod (Float x) (Int 3600) = Ok (Float q, Float r).
Proof.
  unfold divmod, to_float. rewrite float_of_int_3600. cbn [bind ret result_Monad].
  destruct (float_divmod_nonzero x 3600 eq_refl) as (q & r & E). rewrite E.
  do 2 eexists. reflexivity.
Qed.

(** The elapsed time is a float: its text is always produced. *)
Lemma elapsed_text_returns (seconds : float) :
  exists s, AdvancedProgressBar.format_time (Float seconds) = Ok s.
Proof.
  unfold AdvancedProgressBar.format_time.
  destruct (ltb (Float seconds) (Int 60)); [eexists; reflexivity |].
  destruct (ltb (Float seconds) (Int 3600)).
  - destruct (divmod_float_60 seconds) as (m & s & E). rewrite E.
    eexists. reflexivity.
  - destruct (divmod_float_3600 seconds) as (h & m & E). rewrite E.
    cbn [bind ret result_Monad].
    destruct (divmod_float_60 m) as (m' & s & E'). rewrite E'.
    eexists. reflexivity.
Qed.

Lemma record_iteration_time_returns (c : Z) (elapsed_time : float) (samples : list float) :
  Z.abs c < 2 ^ 63 -> (List.length samples <= 100)%nat ->
  exists samples', record_iteration_time c elapsed_time samples = Ok samples' /\
                   (List.length samples' <= 100)%nat.
Proof.
  intros Hc Hl. unfold record_iteration_time.
  destruct (c >? 0) eqn:G; [| exists samples; split; [reflexivity | exact Hl]].
  unfold truediv_float. rewrite (float_of_int_in_range c Hc).
  cbn [bind ret result_Monad].
  replace (c =? 0) with false by (symmetry; apply Z.eqb_neq; lia).
  cbn [bind ret result_Monad]. eexists. split; [reflexivity |].
  set (l := (samples ++ [PrimFloat.div elapsed_time
       (SF2Prim (binary_normalize prec emax c 0 false))])%list).
  assert (El : List.length l = S (List.length samples)).
  { unfold l. rewrite length_app. cbn. lia. }
  destruct (100 <? Z.of_nat (List.length l)) eqn:C.
  - destruct l; cbn [tl List.length] in *; lia.
  - apply Z.ltb_ge in C. lia.
Qed.

(** A bar that [update] can draw: the total is not zero, the numbers are
    of 64 bits and at most 100 samples are held. *)
Definition well_formed (self : t) : Prop :=
  total self <> 0 /\ Z.abs (total self) < 2 ^ 63 /\
  Z.abs (bar_length self) < 2 ^ 63 /\
  (List.length (iteration_times self) <= 100)%nat.

(** The line that [update] writes (lines 52-54). *)
Definition progress_line (desc bar percent speed_str elapsed_str eta_str
  current_time : string) : string :=
  CR ++ "⏳ " ++ desc ++ " |" ++ bar ++ "| " ++ percent ++ "% "
  ++ "| ⚡ " ++ speed_str ++ "/s | 🕐 " ++ elapsed_str ++ " "
  ++ "| 🎯 ETA: " ++ eta_str ++ " | 🕒 " ++ current_time.

(** What one call of [update] computed: the values of its local variables. *)
Record Drawn : Type := {
  drawn_progress : float;
  drawn_filled : Z;
  drawn_bar : string;
  drawn_elapsed : float;
  drawn_speed : num;
  drawn_eta : num;
  drawn_percent : string;
  drawn_line : string;
  drawn_samples : list float
}.

(** [draws env c self w d]: [update(c)] on the bar [self] in the world [w]
    goes through all of its statements, with the values [d]. *)
Definition draws (env : Env) (c : Z) (self : t) (w : World) (d : Drawn) : Prop :=
  drawn_elapsed d = PrimFloat.sub (time_time env (readings w)) (start_time self) /\
  render_bar self c = Ok (drawn_progress d, drawn_filled d, drawn_bar d) /\
  speed_and_eta self c (drawn_progress d) (drawn_elapsed d)
    = Ok (drawn_speed d, drawn_eta d) /\
  (p <- mul (Float (drawn_progress d)) (Int 100) ;; format_wf 6 2 p)
    = Ok (drawn_percent d) /\
  (exists speed_str elapsed_str eta_str,
      format_wf 7 0 (drawn_speed d) = Ok speed_str /\
      AdvancedProgressBar.format_time (Float (drawn_elapsed d)) = Ok elapsed_str /\
      format_eta (drawn_eta d) = Ok eta_str /\
      drawn_line d =
        progress_line (desc self) (drawn_bar d) (drawn_percent d) speed_str
          elapsed_str eta_str (strftime_now env "%H:%M:%S" (S (readings w)))) /\
  record_iteration_time c (drawn_elapsed d) (iteration_times self)
    = Ok (drawn_samples d).

(** On a bar that can be drawn, [update(current)] returns for every 64-bit
    [current], whatever the clock and the calendar answer: it reads the two
    of them once each, writes one line and leaves a bar that can be drawn
    again, with [current] and the samples assigned. *)
Lemma update_returns (env : Env) (c : Z) (self : t) (w : World) :
  well_formed self -> Z.abs c < 2 ^ 63 ->
  exists d,
    draws env c self w d /\
    update env c (self, w) =
      (Ok tt,
       (set_iteration_times (drawn_samples d) (set_current c self),
        {| readings := S (S (readings w));
           stdout := (stdout w ++ [drawn_line d])%list |})) /\
    well_formed (set_iteration_times (drawn_samples d) (set_current c self)).
Proof.
  intros (Hn & Ht & Hb & Hl) Hc. unfold update.
  destruct (render_bar_returns self c Hn Ht Hb Hc)
    as (progress & filled & bar & Er).
  set (elapsed := PrimFloat.sub (time_time env (readings w)) (start_time self)).
  destruct (speed_and_eta_returns self c progress elapsed Ht Hc Hl)
    as (speed & eta & Es & Fs & Fe).
  destruct (format_eta_returns eta Fe) as [eta_str Ee].
  destruct (format_wf_returns 7 0 speed Fs) as [speed_str Ev].
  destruct (percent_returns progress) as [percent Ep].
  destruct (elapsed_text_returns elapsed) as [elapsed_str Et].
  destruct (record_iteration_time_returns c elapsed (iteration_times self) Hc Hl)
    as (samples & Ea & Hs).
  exists {| drawn_progress := progress; drawn_filled := filled; drawn_bar := bar;
            drawn_elapsed := elapsed; drawn_speed := speed; drawn_eta := eta;
            drawn_percent := percent;
            drawn_line := progress_line (desc self) bar percent speed_str elapsed_str
                            eta_str (strftime_now env "%H:%M:%S" (S (readings w)));
            drawn_samples := samples |}.
  split; [| split].
  - unfold draws. cbn [drawn_progress drawn_filled drawn_bar drawn_elapsed drawn_speed
                       drawn_eta drawn_percent drawn_line drawn_samples].
    split; [reflexivity |]. split; [exact Er |]. split; [exact Es |].
    split; [exact Ep |]. split; [| exact Ea].
    exists speed_str, elapsed_str, eta_str.
    split; [exact Ev |]. split; [exact Et |]. split; [exact Ee | reflexivity].
  - cbn [drawn_line drawn_samples]. subst elapsed.
    cbn [bind ret M_Monad assign this lift io read write fst snd readings stdout].
    change (render_bar (set_current c self) c) with (render_bar self c). rewrite Er.
    cbn [bind ret M_Monad assign this lift io read write fst snd readings stdout
         start_time set_current].
    change (speed_and_eta (set_current c self) c progress)
      with (speed_and_eta self c progress).
    rewrite Es.
    cbn [bind ret M_Monad assign this lift io read write fst snd readings stdout].
    rewrite Ee, Ep, Ev, Et.
    cbn [bind ret M_Monad assign this lift io read write fst snd readings stdout
         start_time desc iteration_times set_current].
    rewrite Ea. reflexivity.
  - cbn [drawn_samples]. repeat split; assumption.
Qed.

End UpdateReturns.

(** ** The loop of [perform_cycles] (lines 129-147) *)

Section Run.

Variable env : Env.

Import AdvancedProgressBar.

(** The bar of a run of [n] cycles. *)
Definition bar_of (n : Z) (bar : t) : Prop :=
  total bar = n /\ bar_length bar = 40 /\ desc bar = "Processing" /\
  (List.length (iteration_times bar) <= 100)%nat.

Lemma bar_of_well_formed (n : Z) (bar : t) :
  n <> 0 -> Z.abs n < 2 ^ 63 -> bar_of n bar -> well_formed bar.
Proof.
  intros Hn Hr (Ht & Hb & _ & Hl). unfold well_formed. rewrite Ht, Hb.
  split; [exact Hn |]. split; [exact Hr |]. split; [reflexivity | exact Hl].
Qed.

(** [w'] is [w] after [k] more readings and the lines [out]. *)
Definition after (w : World) (k : nat) (out : list string) (w' : World) : Prop :=
  readings w' = (readings w + k)%nat /\ stdout w' = (stdout w ++ out)%list.

Lemma after_trans (w1 w2 w3 : World) (k1 k2 : nat) (o1 o2 : list string) :
  after w1 k1 o1 w2 -> after w2 k2 o2 w3 -> after w1 (k1 + k2) (o1 ++ o2)%list w3.
Proof.
  intros [R1 S1] [R2 S2]. split.
  - rewrite R2, R1. lia.
  - rewrite S2, S1. now rewrite app_assoc.
Qed.

Lemma call_update_returns (n c : Z) (bar : t) (w : World) :
  n <> 0 -> Z.abs n < 2 ^ 63 -> Z.abs c < 2 ^ 63 -> bar_of n bar ->
  exists d bar',
    draws env c bar w d /\
    call (update env c) bar w =
      (Ok (tt, bar'),
       {| readings := S (S (readings w));
          stdout := (stdout w ++ [drawn_line d])%list |}) /\
    bar_of n bar' /\ current bar' = c /\ start_time bar' = start_time bar.
Proof.
  intros Hn Hr Hc Hb.
  destruct (update_returns env c bar w (bar_of_well_formed n bar Hn Hr Hb) Hc)
    as (d & Hd & E & (_ & _ & _ & Hl)).
  exists d, (set_iteration_times (drawn_samples d) (set_current c bar)).
  split; [exact Hd |]. split.
  - unfold call. rewrite E. reflexivity.
  - destruct Hb as (Ht & Hbl & Hdesc & _).
    repeat split; try assumption.
Qed.

Lemma simulate_work_returns (i : Z) : Z.abs i < 2 ^ 63 -> simulate_work i = Ok tt.
Proof.
  intro H. unfold simulate_work. destruct (i >? 0); [| reflexivity].
  rewrite (float_of_int_in_range i H). reflexivity.
Qed.

Lemma int_mod_nonzero (m n : Z) : n <> 0 -> int_mod m n = Ok (m mod n).
Proof.
  intro H. unfold int_mod.
  replace (n =? 0) with false by (symmetry; now apply Z.eqb_neq). reflexivity.
Qed.

(** One pass through the body of the loop, for a run of at least 10 cycles. *)
Lemma cycle_returns (n batch_size i : Z) (bar : t) (pd : PerformanceData) (w : World) :
  10 <= n < 2 ^ 63 -> 1 <= batch_size < 2 ^ 63 -> 0 <= i < n -> bar_of n bar ->
  exists bar' pd' w' k out,
    cycle env n batch_size i (bar, pd) w = (Ok (bar', pd'), w') /\
    bar_of n bar' /\ start_time bar' = start_time bar /\ after w k out w'.
Proof.
  intros Hn Hbs Hi Hb. unfold cycle.
  cbn [bind ret M_Monad lift].
  rewrite (simulate_work_returns i) by lia.
  rewrite (int_mod_nonzero i batch_size) by lia.
  destruct ((i mod batch_size =? 0) || (i =? n - 1))%bool.
  - destruct (call_update_returns n (i + 1) bar w) as (d & bar' & _ & E & Hb' & _ & Hs);
      [lia | lia | lia | exact Hb |].
    rewrite E. cbn [bind ret M_Monad lift].
    assert (Hq : n / 10 <> 0).
    { intro Hq. pose proof (Z.div_mod n 10 ltac:(lia)) as Hd.
      pose proof (Z.mod_pos_bound n 10 ltac:(lia)). lia. }
    rewrite (int_mod_nonzero i (n / 10) Hq).
    destruct ((i mod (n / 10) =? 0) && (i >? 0))%bool.
    + unfold read. cbn [bind ret M_Monad lift readings stdout].
      unfold truediv_float. rewrite (float_of_int_in_range batch_size) by lia.
      cbn [bind ret result_Monad].
      replace (batch_size =? 0) with false by (symmetry; apply Z.eqb_neq; lia).
      cbn [bind ret M_Monad result_Monad].
      do 3 eexists. exists 3%nat, [drawn_line d]. split; [reflexivity |].
      split; [exact Hb' |]. split; [exact Hs |].
      split; cbn [readings stdout]; [lia | reflexivity].
    + cbn [bind ret M_Monad].
      do 3 eexists. exists 2%nat, [drawn_line d]. split; [reflexivity |].
      split; [exact Hb' |]. split; [exact Hs |].
      split; cbn [readings stdout]; [lia | reflexivity].
  - cbn [bind ret M_Monad].
    do 3 eexists. exists 0%nat, []. split; [reflexivity |].
    split; [exact Hb |]. split; [reflexivity |].
    split; [lia | now rewrite app_nil_r].
Qed.

Lemma cycles_returns (n batch_size : Z) (indices : list Z) :
  10 <= n < 2 ^ 63 -> 1 <= batch_size < 2 ^ 63 ->
  Forall (fun i => 0 <= i < n) indices ->
  forall bar pd w, bar_of n bar ->
  exists bar' pd' w' k out,
    cycles env n batch_size indices (bar, pd) w = (Ok (bar', pd'), w') /\
    bar_of n bar' /\ start_time bar' = start_time bar /\ after w k out w'.
Proof.
  intros Hn Hbs Hall. induction Hall as [| i rest Hi _ IH]; intros bar pd w Hb.
  - cbn [cycles]. do 3 eexists. exists 0%nat, []. split; [reflexivity |].
    split; [exact Hb |]. split; [reflexivity |].
    split; [lia | now rewrite app_nil_r].
  - cbn [cycles].
    destruct (cycle_returns n batch_size i bar pd w Hn Hbs Hi Hb)
      as (bar1 & pd1 & w1 & k1 & o1 & E1 & Hb1 & Hs1 & A1).
    cbn [bind M_Monad]. rewrite E1.
    destruct (IH bar1 pd1 w1 Hb1) as (bar2 & pd2 & w2 & k2 & o2 & E2 & Hb2 & Hs2 & A2).
    rewrite E2. exists bar2, pd2, w2, (k1 + k2)%nat, (o1 ++ o2)%list.
    split; [reflexivity |]. split; [exact Hb2 |]. split; [congruence |].
    exact (after_trans _ _ _ _ _ _ _ A1 A2).
Qed.

Lemma range_bounds (n : Z) : Forall (fun i => 0 <= i < n) (range n).
Proof.
  apply Forall_forall. intros i Hin. unfold range in Hin.
  apply in_map_iff in Hin. destruct Hin as (k & <- & Hk). apply in_seq in Hk. lia.
Qed.

(** [w'] holds everything that [w] holds, and more at the end. *)
Definition extends (w w' : World) : Prop :=
  exists out, stdout w' = (stdout w ++ out)%list.

Lemma after_extends (w w' : World) (k : nat) (out : list string) :
  after w k out w' -> extends w w'.
Proof. intros [_ H]. now exists out. Qed.

Lemma extends_trans (w1 w2 w3 : World) : extends w1 w2 -> extends w2 w3 -> extends w1 w3.
Proof.
  intros [o1 H1] [o2 H2]. exists (o1 ++ o2)%list. now rewrite H2, H1, app_assoc.
Qed.

(** [finish()] draws the bar at [total] and prints the closing line. *)
Lemma finish_returns (n : Z) (bar : t) (w : World) :
  n <> 0 -> Z.abs n < 2 ^ 63 -> bar_of n bar ->
  exists d elapsed_str bar',
    draws env n bar w d /\
    call (finish env) bar w =
      (Ok (tt, bar'),
       {| readings := S (S (S (readings w)));
          stdout := (stdout w ++ [drawn_line d;
                                  (LF ++ "✅ Completed in " ++ elapsed_str ++ LF)%string])%list |}) /\
    current bar' = n /\ total bar' = n.
Proof.
  intros Hn Hr Hb.
  destruct (update_returns env n bar w (bar_of_well_formed n bar Hn Hr Hb))
    as (d & Hd & E & _); [exact Hr |].
  destruct (elapsed_text_returns
              (PrimFloat.sub (time_time env (S (S (readings w)))) (start_time bar)))
    as [elapsed_str Et].
  exists d, elapsed_str, (set_iteration_times (drawn_samples d) (set_current n bar)).
  split; [exact Hd |]. destruct Hb as (Ht & _). split; [| split; [reflexivity | exact Ht]].
  unfold call, finish. cbn [bind ret M_Monad this fst snd]. rewrite Ht, E.
  cbn [bind ret M_Monad this io read lift fst snd readings stdout]. rewrite Et.
  unfold print, write. cbn [io fst snd readings stdout].
  rewrite <- app_assoc. reflexivity.
Qed.

Lemma batch_size_bounds (n : Z) :
  0 <= n -> 1 <= Z.max 1 (Z.min (n / 100) 10000) < 2 ^ 63.
Proof. intro H. lia. Qed.

(** A run of at least ten cycles goes through: the loop and [finish()]
    return, and the last two lines written are those of [finish()]: the bar
    drawn at [current = total] and the closing line. *)
Lemma perform_cycles_returns (n : Z) (w : World) :
  10 <= n < 2 ^ 63 ->
  exists total_ns total_sec cpu_time_sec pd w' out bar w0 d elapsed_str,
    perform_cycles env n w = (Ok (total_ns, total_sec, cpu_time_sec, pd), w') /\
    stdout w' = (stdout w ++ out ++
                 [drawn_line d; (LF ++ "✅ Completed in " ++ elapsed_str ++ LF)%string])%list /\
    bar_of n bar /\ draws env n bar w0 d /\
    Z.abs total_ns < 2 ^ 63.
Proof.
  intro Hn. unfold perform_cycles, print_header, print_section, print_info, init,
    print, write, read.
  cbn [bind ret M_Monad readings stdout].
  match goal with
  | |- context [cycles env n ?bs (range n) (?b, ?p) ?w0] =>
      destruct (cycles_returns n bs (range n) Hn (batch_size_bounds n ltac:(lia))
                  (range_bounds n) b p w0)
        as (bar1 & pd1 & w1 & k1 & o1 & E1 & Hb1 & _ & A1);
      [repeat split; cbn; lia |];
      assert (X0 : extends w w0)
        by (unfold extends; cbn [stdout]; repeat rewrite <- app_assoc;
            eexists; reflexivity)
  end.
  rewrite E1.
  destruct (finish_returns n bar1 w1) as (d & elapsed_str & bar2 & Hd & E2 & _);
    [lia | lia | exact Hb1 |].
  rewrite E2. cbn [bind ret M_Monad readings stdout lift].
  pose proof (perf_counter_ns_range env (S (S (S (readings w1))))) as R1.
  match goal with
  | |- context [int_truediv (perf_counter_ns env ?a - perf_counter_ns env ?b)] =>
      pose proof (perf_counter_ns_range env b) as R2;
      rewrite (int_truediv_in_range (perf_counter_ns env a - perf_counter_ns env b)
                 1000000000) by lia
  end.
  destruct (extends_trans _ _ _ X0 (after_extends _ _ _ _ A1)) as [out Eo].
  do 5 eexists. exists out, bar1, w1, d, elapsed_str.
  split; [reflexivity |]. cbn [stdout]. split.
  - rewrite Eo, <- app_assoc. reflexivity.
  - split; [exact Hb1 |]. split; [exact Hd |]. lia.
Qed.

End Run.

(** ** Runs of fewer than ten cycles (C10) *)

Section SmallRun.

Variable env : Env.

Import AdvancedProgressBar.

Lemma range_cons (n : Z) :
  1 <= n -> exists rest, range n = 0 :: rest.
Proof.
  intro H. unfold range. destruct (Z.to_nat n) as [| k] eqn:E; [lia |].
  cbn [seq map]. eexists. reflexivity.
Qed.

(** The first pass through the loop, for a run of one to nine cycles: the
    bar is drawn at 1, and the sampling test of line 141 divides by
    [num_cycles // 10], which is 0. *)
Lemma cycle_small (n : Z) (bar : t) (pd : PerformanceData) (w : World) :
  1 <= n <= 9 -> bar_of n bar ->
  exists d,
    draws env 1 bar w d /\
    cycle env n (Z.max 1 (Z.min (n / 100) 10000)) 0 (bar, pd) w =
      (Raise (ZeroDivisionError "integer modulo by zero"),
       {| readings := S (S (readings w));
          stdout := (stdout w ++ [drawn_line d])%list |}).
Proof.
  intros Hn Hb.
  replace (n / 100) with 0 by (symmetry; apply Z.div_small; lia).
  change (Z.max 1 (Z.min 0 10000)) with 1.
  destruct (call_update_returns env n 1 bar w) as (d & bar' & Hd & E & _);
    [lia | lia | reflexivity | exact Hb |].
  exists d. split; [exact Hd |].
  unfold cycle. cbn [bind ret M_Monad lift].
  change (simulate_work 0) with (Ok tt). change (int_mod 0 1) with (Ok 0).
  cbn [bind ret M_Monad lift Z.eqb orb Z.add].
  rewrite E. cbn [bind ret M_Monad lift].
  replace (n / 10) with 0 by (symmetry; apply Z.div_small; lia).
  reflexivity.
Qed.

Lemma perform_cycles_small (n : Z) (w : World) :
  1 <= n <= 9 ->
  exists w' out bar w0 d,
    perform_cycles env n w = (Raise (ZeroDivisionError "integer modulo by zero"), w') /\
    stdout w' = (stdout w ++ out ++ [drawn_line d])%list /\
    bar_of n bar /\ draws env 1 bar w0 d.
Proof.
  intro Hn. unfold perform_cycles, print_header, print_section, print_info, init,
    print, write, read.
  cbn [bind ret M_Monad readings stdout].
  destruct (range_cons n ltac:(lia)) as [rest Er]. rewrite Er.
  cbn [cycles bind M_Monad].
  match goal with
  | |- context [cycle env n ?bs 0 (?b, ?p) ?w0] =>
      assert (Hb : bar_of n b) by (repeat split; cbn; lia);
      destruct (cycle_small n b p w0 Hn Hb) as (d & Hd & E);
      assert (X0 : extends w w0)
        by (unfold extends; cbn [stdout]; repeat rewrite <- app_assoc;
            eexists; reflexivity);
      exists {| readings := S (S (readings w0));
                stdout := (stdout w0 ++ [drawn_line d])%list |};
      destruct X0 as [out Eo]; exists out, b, w0, d
  end.
  cbn [bind M_Monad]. rewrite E. split; [reflexivity |].
  cbn [stdout] in Eo |- *. split; [| split; assumption].
  rewrite Eo, <- app_assoc. reflexivity.
Qed.

Lemma large_number_warning_skipped (n : Z) (w : World) :
  n <= 1000000 -> large_number_warning env n w = (Ok true, w).
Proof.
  intro H. unfold large_number_warning.
  replace (n >? 1000000) with false; [reflexivity |].
  symmetry. rewrite Z.gtb_ltb. apply Z.ltb_ge. exact H.
Qed.

(** C10: for every count from 1 to 9, whatever the clock and the calendar
    answer, [num_cycles // 10] is 0 and the first pass through the loop
    raises ZeroDivisionError at the sampling test of line 141, after the bar
    was drawn once, at 1; [perform_cycles] ends with that exception, so
    that the run does not complete; and [main] returns all the same, the
    exception having been caught by its last handler, which prints the
    message of the exception and the advice to try another count. *)
Theorem small_runs_fail (n : Z) (w : World) :
  1 <= n <= 9 ->
  n / 10 = 0 /\
  (forall bar pd w0, bar_of n bar ->
     fst (cycle env n (Z.max 1 (Z.min (n / 100) 10000)) 0 (bar, pd) w0)
       = Raise (ZeroDivisionError "integer modulo by zero")) /\
  (exists w' out bar w0 d,
     perform_cycles env n w = (Raise (ZeroDivisionError "integer modulo by zero"), w') /\
     stdout w' = (stdout w ++ out ++ [drawn_line d])%list /\
     bar_of n bar /\ draws env 1 bar w0 d) /\
  (exists w' out,
     main env n w = (Ok tt, w') /\
     stdout w' =
       (stdout w ++ out ++
        [((LF ++ "❌ An error occurred: " ++ "integer modulo by zero") ++ LF)%string;
         ("Please try again with a different number of cycles." ++ LF)%string])%list).
Proof.
  intro Hn. split; [apply Z.div_small; lia |]. split; [| split].
  - intros bar pd w0 Hb. destruct (cycle_small n bar pd w0 Hn Hb) as (d & _ & E).
    rewrite E. reflexivity.
  - exact (perform_cycles_small n w Hn).
  - unfold main, print_header, print, write, try.
    cbn [bind ret M_Monad readings stdout].
    rewrite large_number_warning_skipped by lia.
    cbn [bind ret M_Monad readings stdout].
    match goal with
    | |- context [perform_cycles env n ?w0] =>
        destruct (perform_cycles_small n w0 Hn) as (w1 & o1 & _ & _ & d & E & Eo & _);
        assert (X0 : extends w w0)
          by (unfold extends; cbn [stdout]; repeat rewrite <- app_assoc;
              eexists; reflexivity)
    end.
    rewrite E. cbn [bind ret M_Monad readings stdout exn_message].
    eexists. destruct X0 as [o0 E0]. rewrite E0 in Eo.
    exists (o0 ++ o1 ++ [drawn_line d])%list. split; [reflexivity |].
    cbn [stdout]. rewrite Eo. repeat rewrite <- app_assoc. reflexivity.
Qed.

End SmallRun.

(** An environment in which time stands still, and an empty world. *)
Definition frozen_env : Env :=
  {| time_time := fun _ => 0%float;
     process_time := fun _ => 0%float;
     perf_counter_ns := fun _ => 0;
     perf_counter_ns_range := fun _ => conj (Z.le_refl 0) eq_refl;
     strftime_now := fun _ _ => "00:00:00";
     sys_version_first_word := "3.11.2";
     sys_platform := "linux";
     input := fun _ _ => "" |}.

Definition empty_world : World := {| readings := 0; stdout := [] |}.

(** Five cycles. *)
Lemma small_runs_fail_witness :
  fst (perform_cycles frozen_env 5 empty_world)
    = Raise (ZeroDivisionError "integer modulo by zero") /\
  fst (main frozen_env 5 empty_world) = Ok tt.
Proof.
  destruct (small_runs_fail frozen_env 5 empty_world ltac:(lia)) as (_ & _ & P & M).
  destruct P as (w1 & _ & _ & _ & _ & E & _). destruct M as (w2 & _ & E2 & _).
  rewrite E, E2. split; reflexivity.
Defined.

(** ** A run of ten cycles (C9) *)

Lemma render_bar_ten (bar : AdvancedProgressBar.t) :
  AdvancedProgressBar.total bar = 10 -> AdvancedProgressBar.bar_length bar = 40 ->
  AdvancedProgressBar.render_bar bar 10 = Ok (1%float, 40, str_mul "█" 40).
Proof.
  intros Ht Hb. unfold AdvancedProgressBar.render_bar. rewrite Ht, Hb.
  vm_compute. reflexivity.
Qed.

(** C9: a run of ten cycles completes, whatever the clock and the calendar
    answer: [perform_cycles(10)] returns its four results.  The last call of
    [update] is the one of [finish()], with [current = 10] on the bar whose
    total is 10; there the progress is exactly 1.0, all 40 cells are filled
    and the line written shows 100.00%; after it only the closing line is
    written. *)
Theorem ten_cycles_complete (env : Env) (w : World) :
  exists result w' out bar w0 d tail completed,
    perform_cycles env 10 w = (Ok result, w') /\
    stdout w' = (stdout w ++ out ++ [drawn_line d; completed])%list /\
    AdvancedProgressBar.total bar = 10 /\
    draws env 10 bar w0 d /\
    drawn_progress d = 1%float /\
    drawn_filled d = 40 /\
    drawn_line d =
      CR ++ "⏳ Processing |" ++ str_mul "█" 40 ++ "| 100.00% " ++ tail.
Proof.
  destruct (perform_cycles_returns env 10 w ltac:(lia))
    as (total_ns & total_sec & cpu & pd & w' & out & bar & w0 & d & elapsed_str
        & E & Eo & Hb & Hd & _).
  pose proof Hd as (_ & Er & _ & Ep & (speed_str & el_str & eta_str & _ & _ & _ & El) & _).
  destruct Hb as (Ht & Hbl & Hdesc & _).
  rewrite (render_bar_ten bar Ht Hbl) in Er. injection Er as E1 E2 E3.
  rewrite <- E1 in Ep.
  assert (Hp : (p <- mul (Float 1) (Int 100) ;; format_wf 6 2 p) = Ok "100.00")
    by (vm_compute; reflexivity).
  rewrite Hp in Ep. injection Ep as Ep.
  exists (total_ns, total_sec, cpu, pd), w', out, bar, w0, d.
  eexists. eexists.
  split; [exact E |]. split; [exact Eo |]. split; [exact Ht |]. split; [exact Hd |].
  split; [now symmetry |]. split; [now symmetry |].
  rewrite El, <- E3, <- Ep, Hdesc. unfold progress_line. reflexivity.
Qed.

(** ** The predictions (C6, C7) *)

(** A number that is a float, or an int below [2^100] in magnitude. *)
Definition moderate (a : num) : Prop := forall k, a = Int k -> Z.abs k < 2 ^ 100.

Lemma moderate_Float (x : float) : moderate (Float x).
Proof. intros k H. discriminate H. Qed.

Lemma fits_moderate (a : num) : fits a -> moderate a.
Proof. intros H k E. specialize (H k E). lia. Qed.

Lemma float_of_int_moderate (n : Z) :
  Z.abs n < 2 ^ 100 -> exists x, float_of_int n = Ok x.
Proof.
  intro H. unfold float_of_int.
  assert (B : 2 ^ 100 < overflow_bound) by reflexivity.
  replace (Z.abs n <? overflow_bound) with true; [eexists; reflexivity |].
  symmetry. apply Z.ltb_lt. lia.
Qed.

Lemma to_float_moderate (a : num) : moderate a -> exists x, to_float a = Ok x.
Proof.
  intro H. destruct a as [k | x]; cbn [to_float].
  - apply float_of_int_moderate. exact (H k eq_refl).
  - eexists. reflexivity.
Qed.

Lemma format_f_moderate (p : nat) (a : num) :
  moderate a -> exists s, format_f p a = Ok s.
Proof.
  intro H. unfold format_f. destruct (to_float_moderate a H) as [x E]. rewrite E.
  eexists. reflexivity.
Qed.

(** A moderate number times a float. *)
Lemma mul_float_moderate (a : num) (y : float) :
  moderate a -> exists x, mul a (Float y) = Ok (Float x).
Proof.
  intro H. unfold mul, arith. destruct (to_float_moderate a H) as [x E].
  destruct a as [k | x']; rewrite E; eexists; reflexivity.
Qed.

(** A moderate number divided by one of the constants 60 and 3600. *)
Lemma truediv_moderate (a : num) (d : Z) :
  moderate a -> 0 < d < 2 ^ 63 -> exists q, truediv a (Int d) = Ok (Float q).
Proof.
  intros H Hd. unfold truediv, truediv_float. destruct a as [k | x].
  - unfold int_truediv.
    replace (d =? 0) with false by (symmetry; apply Z.eqb_neq; lia).
    assert (B : 2 ^ 100 < overflow_bound) by reflexivity.
    pose proof (H k eq_refl) as Hk.
    replace (Z.abs k <? overflow_bound * Z.abs d) with true
      by (symmetry; apply Z.ltb_lt; nia).
    eexists. reflexivity.
  - rewrite (float_of_int_in_range d) by lia. cbn [bind ret result_Monad].
    replace (d =? 0) with false by (symmetry; apply Z.eqb_neq; lia).
    eexists. reflexivity.
Qed.

(** The estimate and its text are produced for every time per cycle that
    is a float or a 64-bit int, and every count of the table. *)
Lemma prediction_returns (time_per_cycle : num) (cycles : Z) :
  fits time_per_cycle -> In cycles test_cycles ->
  exists estimated_time time_str emoji,
    mul time_per_cycle (Int cycles) = Ok estimated_time /\
    prediction time_per_cycle cycles = Ok (estimated_time, time_str, emoji).
Proof.
  intros Hf Hin.
  assert (Hc : 0 < cycles <= 100000000).
  { unfold test_cycles in Hin. cbn [In] in Hin. lia. }
  assert (He : exists est, mul time_per_cycle (Int cycles) = Ok est /\ moderate est /\
                           (forall k, est = Int k -> Z.abs (k * 1000) < 2 ^ 100)).
  { destruct time_per_cycle as [k | x].
    - exists (Int (k * cycles)). pose proof (Hf k eq_refl) as Hk.
      split; [reflexivity |]. split; intros j [= <-]; nia.
    - unfold mul, arith, to_float. rewrite (float_of_int_in_range cycles) by lia.
      eexists. split; [reflexivity |]. split; intros j E; discriminate E. }
  destruct He as (est & Em & Hm & Hm').
  exists est. unfold prediction. rewrite Em. cbn [bind ret result_Monad].
  destruct (ltb est (Float 0.001)).
  { destruct (mul_float_moderate est 1e6 Hm) as [x Ex]. rewrite Ex.
    do 2 eexists. split; reflexivity. }
  destruct (ltb est (Int 1)).
  { assert (Hx : exists x, mul est (Int 1000) = Ok x /\ moderate x).
    { destruct est as [k | y].
      - exists (Int (k * 1000)). split; [reflexivity |].
        intros j [= <-]. exact (Hm' k eq_refl).
      - unfold mul, arith, to_float. rewrite (float_of_int_in_range 1000) by reflexivity.
        eexists. split; [reflexivity | apply moderate_Float]. }
    destruct Hx as (x & Ex & Hx). rewrite Ex. cbn [bind ret result_Monad].
    destruct (format_f_moderate 1 x Hx) as [s Es]. rewrite Es.
    do 2 eexists. split; reflexivity. }
  destruct (ltb est (Int 60)).
  { destruct (format_f_moderate 2 est Hm) as [s Es]. rewrite Es.
    do 2 eexists. split; reflexivity. }
  destruct (ltb est (Int 3600)).
  { destruct (truediv_moderate est 60 Hm) as [q Eq]; [lia |]. rewrite Eq.
    do 2 eexists. split; reflexivity. }
  destruct (truediv_moderate est 3600 Hm) as [q Eq]; [lia |]. rewrite Eq.
  do 2 eexists. split; reflexivity.
Qed.

(** [line] is what the loop of [display_predictions] prints for [cycles]:
    the estimate is the time per cycle times the count, and nothing else. *)
Definition prediction_line (time_per_cycle : num) (cycles : Z) (line : string) : Prop :=
  exists estimated_time time_str emoji,
    mul time_per_cycle (Int cycles) = Ok estimated_time /\
    prediction time_per_cycle cycles = Ok (estimated_time, time_str, emoji) /\
    line = ("   📅 " ++ ljust 25 (rjust 12 (format_comma cycles) ++ " cycles")
            ++ ": " ++ time_str ++ " " ++ emoji) ++ LF.

(** A loop whose body prints one line for the elements that pass a test,
    and does nothing for the others. *)
Lemma for_each_filter {A : Type} (body : A -> IO unit) (test : A -> bool)
  (R : A -> string -> Prop) (xs : list A) :
  (forall x w, In x xs ->
     if test x
     then exists line,
            body x w = (Ok tt, {| readings := readings w;
                                  stdout := (stdout w ++ [line])%list |}) /\
            R x line
     else body x w = (Ok tt, w)) ->
  forall w, exists lines,
    for_each xs body w
      = (Ok tt, {| readings := readings w; stdout := (stdout w ++ lines)%list |}) /\
    Forall2 R (filter test xs) lines.
Proof.
  induction xs as [| x rest IH]; intros Hbody w.
  - exists []. split; [| constructor]. cbn [for_each ret M_Monad].
    rewrite app_nil_r. destruct w. reflexivity.
  - cbn [for_each filter]. cbn [bind M_Monad].
    pose proof (Hbody x w (or_introl eq_refl)) as Hx.
    assert (Hrest : forall y w', In y rest ->
              if test y
              then exists line,
                     body y w' = (Ok tt, {| readings := readings w';
                                            stdout := (stdout w' ++ [line])%list |}) /\
                     R y line
              else body y w' = (Ok tt, w'))
      by (intros y w' Hy; apply Hbody; now right).
    destruct (test x).
    + destruct Hx as (line & E & Hr). rewrite E.
      destruct (IH Hrest {| readings := readings w;
                            stdout := (stdout w ++ [line])%list |}) as (lines & E' & F).
      rewrite E'. cbn [readings stdout]. exists (line :: lines). split.
      * rewrite <- app_assoc. reflexivity.
      * constructor; assumption.
    + rewrite Hx. destruct (IH Hrest w) as (lines & E' & F).
      rewrite E'. exists lines. split; [reflexivity | exact F].
Qed.

(** C6: the predictor goes through the fixed counts 100, 1e3, ..., 1e8 in
    this order and prints, after the two lines of the section title, one
    line for each count that is strictly greater than the executed count,
    and none for the others; the estimate of a line is the measured time per
    cycle multiplied by the count, and nothing else enters it. *)
Theorem predictions_shown (num_cycles : Z) (metrics : Metrics) (w : World) :
  fits (seconds_per_cycle metrics) ->
  test_cycles = [100; 1000; 10000; 100000; 1000000; 10000000; 100000000] /\
  exists lines,
    display_predictions num_cycles metrics w =
      (Ok tt,
       {| readings := readings w;
          stdout := (stdout w ++
                     [((LF ++ "🔮" ++ " " ++ "PERFORMANCE PREDICTIONS") ++ LF)%string;
                      (str_mul "─" 50 ++ LF)%string] ++ lines)%list |}) /\
    Forall2 (prediction_line (seconds_per_cycle metrics))
            (filter (fun cycles => cycles >? num_cycles) test_cycles) lines.
Proof.
  intro Hf. split; [reflexivity |].
  unfold display_predictions.
  match goal with
  | |- context [for_each test_cycles ?body] => remember body as loop eqn:Eloop
  end.
  destruct (for_each_filter loop (fun cycles => cycles >? num_cycles)
              (prediction_line (seconds_per_cycle metrics)) test_cycles)
    with (w := {| readings := readings w;
                  stdout := ((stdout w ++
                    [((LF ++ "🔮" ++ " " ++ "PERFORMANCE PREDICTIONS") ++ LF)%string])
                    ++ [(str_mul "─" 50 ++ LF)%string])%list |})
    as (lines & E & F).
  - intros c w1 Hin. rewrite Eloop. destruct (c >? num_cycles); [| reflexivity].
    destruct (prediction_returns (seconds_per_cycle metrics) c Hf Hin)
      as (est & time_str & emoji & Em & Ep).
    eexists. split.
    + cbn [bind M_Monad lift]. rewrite Ep. reflexivity.
    + exists est, time_str, emoji. split; [exact Em |]. split; [exact Ep | reflexivity].
  - exists lines. split; [| exact F].
    unfold print_section, print, write. cbn [bind ret M_Monad readings stdout].
    cbn [readings stdout] in E. rewrite E.
    repeat rewrite <- app_assoc. reflexivity.
Qed.
